(** * create-polyglot, Python service template: the log store and its HTTP surface

    A shallow embedding of [src/templates/python/app/main.py]:
    the [FileLogger] class (append path), the [log_requests] middleware,
    the [/health] handler and the [/logs] handler [get_logs] (query path).

    Conventions.
    - A Python [str] is a Rocq [string]. The source itself inspects
      characters only to replace ['Z'] and (through [readlines]) to find line
      breaks; case folding, whitespace stripping, JSON and ISO timestamps are
      library calls and are taken from the [PyRuntime] interface below, so the
      theorems hold for every behaviour of those calls.
    - A computation that may raise returns a [result]; stateful code threads a
      [World] (file system, wall clock, I/O outcomes, console).
    - [MemoryError] and a recursion limit reached by the program's own calls
      are outside the model; what a library call raises is part of its
      answer. *)

From Stdlib Require Import ZArith Ascii String List Lia DecimalString.
From stdpp Require Import base option list strings gmap.

Local Set Warnings "-register-all".
Local Open Scope string_scope.
Local Open Scope list_scope.
Local Open Scope Z_scope.

(** ** JSON values, as [json.loads] produces them *)

Inductive json : Type :=
  | JNull
  | JBool (b : bool)
  | JInt (z : Z)
  | JFloat (repr : string)
  | JStr (s : string)
  | JArr (items : list json)
  | JObj (members : list (string * json)).

(** [d.get(key)] and [d[key]] on the members of a dict (keys are unique in a
    Python dict; the first binding is the one a lookup sees). *)
Fixpoint dict_lookup (key : string) (members : list (string * json)) : option json :=
  match members with
  | [] => None
  | (k, v) :: rest => if String.eqb k key then Some v else dict_lookup key rest
  end.

(** [v == s] for a JSON value [v] and a [str] [s]: only a string can be equal
    to a string. *)
Definition py_eq_str (v : json) (s : string) : bool :=
  match v with
  | JStr t => String.eqb t s
  | _ => false
  end.

(** ** Exceptions *)

Inductive exn : Type :=
  | OSError (errno : Z)
  | UnicodeDecodeError
  | ValueError
  | ValueError_int_digits (digits : nat)
  | JSONDecodeError
  | RecursionError
  | KeyError (key : string)
  | TypeError_subscript (receiver : json)
  | TypeError_compare
  | AttributeError (receiver : json) (attr : string).

(** [isinstance(e, ValueError)]: [UnicodeDecodeError] and
    [json.JSONDecodeError] derive from [ValueError]; [ValueError_int_digits] is
    the plain [ValueError] of an integer conversion above the digit limit. *)
Definition is_ValueError (e : exn) : bool :=
  match e with
  | ValueError | ValueError_int_digits _ | UnicodeDecodeError | JSONDecodeError => true
  | _ => false
  end.

(** [isinstance(e, json.JSONDecodeError)] *)
Definition is_JSONDecodeError (e : exn) : bool :=
  match e with
  | JSONDecodeError => true
  | _ => false
  end.

Inductive result (A : Type) : Type :=
  | Ok (a : A)
  | Raise (e : exn).
Arguments Ok {A} a.
Arguments Raise {A} e.

Definition rbind {A B} (r : result A) (k : A -> result B) : result B :=
  match r with
  | Ok a => k a
  | Raise e => Raise e
  end.

Declare Scope py_scope.
Delimit Scope py_scope with py.
Notation "'let?' x ':=' r 'in' k" := (rbind r (fun x => k))
  (at level 10, x name, r at level 100, k at level 200) : py_scope.

(** A list comprehension [[x for x in xs if p(x)]] whose condition may raise:
    elements are visited in order and the first exception aborts. *)
Fixpoint comprehension_if {A} (p : A -> result bool) (xs : list A) : result (list A) :=
  match xs with
  | [] => Ok []
  | x :: rest =>
      match p x with
      | Raise e => Raise e
      | Ok keep =>
          match comprehension_if p rest with
          | Raise e => Raise e
          | Ok ys => Ok (if keep then x :: ys else ys)
          end
      end
  end.

(** ** datetime *)

(** [utcoffset] is [None] for a naive datetime, [Some seconds] for an aware
    one. *)
Record datetime : Type := mk_datetime {
  year : Z; month : Z; day : Z;
  hour : Z; minute : Z; second : Z; microsecond : Z;
  utcoffset : option Z
}.

Definition is_leap (y : Z) : bool :=
  (y mod 4 =? 0) && (negb (y mod 100 =? 0) || (y mod 400 =? 0)).

Definition days_before_month (y m : Z) : Z :=
  let feb := if is_leap y then 29 else 28 in
  match m with
  | 1 => 0
  | 2 => 31
  | 3 => 31 + feb
  | 4 => 62 + feb
  | 5 => 92 + feb
  | 6 => 123 + feb
  | 7 => 153 + feb
  | 8 => 184 + feb
  | 9 => 215 + feb
  | 10 => 245 + feb
  | 11 => 276 + feb
  | _ => 306 + feb
  end.

(** Proleptic Gregorian ordinal, 0001-01-01 being day 1. *)
Definition ymd2ord (y m d : Z) : Z :=
  let p := y - 1 in
  p * 365 + p / 4 - p / 100 + p / 400 + days_before_month y m + d.

(** Microseconds of the wall-clock fields since the start of day 0. *)
Definition wall_micros (t : datetime) : Z :=
  (((ymd2ord (year t) (month t) (day t) * 24 + hour t) * 60 + minute t) * 60
     + second t) * 1000000 + microsecond t.

(** [a >= b] on datetimes: two naive values compare by their fields, two aware
    values by their instants, and a naive with an aware value raises
    [TypeError]. *)
Definition datetime_ge (a b : datetime) : result bool :=
  match utcoffset a, utcoffset b with
  | None, None => Ok (wall_micros b <=? wall_micros a)
  | Some oa, Some ob =>
      Ok (wall_micros b - ob * 1000000 <=? wall_micros a - oa * 1000000)
  | _, _ => Raise TypeError_compare
  end.

Definition decimal (n : Z) : string := NilZero.string_of_int (Z.to_int n).

Fixpoint zeros (n : nat) : string :=
  match n with
  | O => EmptyString
  | S k => String "0" (zeros k)
  end.

(** ["%0<width>d"] for a non-negative number. *)
Definition zpad (width : nat) (n : Z) : string :=
  let d := decimal n in
  zeros (width - String.length d) +:+ d.

(** [t.strftime("%Y-%m-%d")], for the years from 1000 on. *)
Definition strftime_Ymd (t : datetime) : string :=
  zpad 4 (year t) +:+ "-" +:+ zpad 2 (month t) +:+ "-" +:+ zpad 2 (day t).

Definition format_offset (off : Z) : string :=
  let sign := if off <? 0 then "-" else "+" in
  let a := Z.abs off in
  sign +:+ zpad 2 (a / 3600) +:+ ":" +:+ zpad 2 (a / 60 mod 60)
    +:+ (if a mod 60 =? 0 then EmptyString else ":" +:+ zpad 2 (a mod 60)).

(** [t.isoformat()] *)
Definition isoformat (t : datetime) : string :=
  strftime_Ymd t +:+ "T" +:+ zpad 2 (hour t) +:+ ":" +:+ zpad 2 (minute t)
    +:+ ":" +:+ zpad 2 (second t)
    +:+ (if microsecond t =? 0 then EmptyString else "." +:+ zpad 6 (microsecond t))
    +:+ (match utcoffset t with None => EmptyString | Some off => format_offset off end).

(** ** str methods the source calls with literal arguments *)

(** [s.replace(old, new)] for a one-character [old]. *)
Fixpoint str_replace_char (old : ascii) (new : string) (s : string) : string :=
  match s with
  | EmptyString => EmptyString
  | String c rest =>
      if Ascii.eqb c old then new +:+ str_replace_char old new rest
      else String c (str_replace_char old new rest)
  end.

Definition LF : ascii := ascii_of_nat 10.
Definition CR : ascii := ascii_of_nat 13.
Definition newline : string := String LF EmptyString.

(** [f.readlines()] on a file opened in text mode with the default
    [newline=None]: lines end at ["\n"], ["\r"] or ["\r\n"], every terminator
    is handed over as ["\n"], and a last line without terminator is kept. *)
Fixpoint readlines_from (cur : string) (s : string) : list string :=
  match s with
  | EmptyString => if decide (cur = EmptyString) then [] else [cur]
  | String c rest =>
      if Ascii.eqb c LF then (cur +:+ newline) :: readlines_from EmptyString rest
      else if Ascii.eqb c CR then
        match rest with
        | String c' rest' =>
            if Ascii.eqb c' LF
            then (cur +:+ newline) :: readlines_from EmptyString rest'
            else (cur +:+ newline) :: readlines_from EmptyString rest
        | EmptyString => [cur +:+ newline]
        end
      else readlines_from (cur +:+ String c EmptyString) rest
  end.

Definition readlines (content : string) : list string :=
  readlines_from EmptyString content.

(** [l[start:]] *)
Definition py_slice_from {A} (start : Z) (l : list A) : list A :=
  let n := Z.of_nat (length l) in
  let i := if start <? 0 then Z.max 0 (n + start) else Z.min start n in
  drop (Z.to_nat i) l.

(** ** The library calls the source relies on *)

Class PyRuntime : Type := {
  (** [s.lower()] *)
  str_lower : string -> string;
  (** [s.strip()] *)
  str_strip : string -> string;
  (** [json.dumps(v)] *)
  json_dumps : json -> string;
  (** [json.loads(s)]: the value, [json.JSONDecodeError] for text that is not
      JSON, or whatever else the call raises ([ValueError] for an integer
      literal above the digit limit, [RecursionError] for deep nesting) *)
  json_loads : string -> result json;
  (** [datetime.fromisoformat(s)]; [None] stands for [ValueError] *)
  fromisoformat : string -> option datetime;
  (** [str(e)] *)
  exn_str : exn -> string
}.

(** ** The world the service runs in *)

(** What the operating system answers to one [open(...)] and the transfer that
    follows it. [TransferRaises e n]: the file was opened, then reading failed,
    or writing failed after [n] characters had reached the file. *)
Inductive io_outcome : Type :=
  | IoOk
  | OpenRaises (e : exn)
  | TransferRaises (e : exn) (n : nat).

(** One look at the wall clock: [datetime.now()] is the local time (naive);
    [utc_now] is the UTC time of the same instant. *)
Record reading : Type := mk_reading {
  local_now : datetime;
  utc_now : datetime
}.

(** [files] maps the name of a file inside [Path.cwd() / ".logs"] to its text.
    [clock] and [io] list what successive clock readings and [open] calls
    will get; [clock_pos] and [io_pos] count how many were used. *)
Record World : Type := mk_World {
  logs_dir_exists : bool;
  files : gmap string string;
  clock : nat -> reading;
  clock_pos : nat;
  io : nat -> io_outcome;
  io_pos : nat;
  stdout : list string;
  stderr : list (string * string)
}.

Definition set_files (f : gmap string string) (w : World) : World :=
  mk_World (logs_dir_exists w) f (clock w) (clock_pos w) (io w) (io_pos w)
           (stdout w) (stderr w).

Definition set_logs_dir_exists (b : bool) (w : World) : World :=
  mk_World b (files w) (clock w) (clock_pos w) (io w) (io_pos w)
           (stdout w) (stderr w).

Definition tick_clock (w : World) : World :=
  mk_World (logs_dir_exists w) (files w) (clock w) (S (clock_pos w)) (io w)
           (io_pos w) (stdout w) (stderr w).

Definition tick_io (w : World) : World :=
  mk_World (logs_dir_exists w) (files w) (clock w) (clock_pos w) (io w)
           (S (io_pos w)) (stdout w) (stderr w).

Definition M (A : Type) : Type := World -> result A * World.

Definition ret {A} (a : A) : M A := fun w => (Ok a, w).

Definition bind {A B} (m : M A) (k : A -> M B) : M B :=
  fun w =>
    match m w with
    | (Ok a, w') => k a w'
    | (Raise e, w') => (Raise e, w')
    end.

Notation "x <- m ;; k" := (bind m (fun x => k))
  (at level 100, m at next level, right associativity) : py_scope.
Notation "m ;;; k" := (bind m (fun _ => k))
  (at level 100, right associativity) : py_scope.

Definition lift {A} (r : result A) : M A := fun w => (r, w).

(** [try: body  except Exception as e: handler(e)] *)
Definition try_except {A} (body : M A) (handler : exn -> M A) : M A :=
  fun w =>
    match body w with
    | (Ok a, w') => (Ok a, w')
    | (Raise e, w') => handler e w'
    end.

Local Open Scope py_scope.

(** [datetime.now()] *)
Definition datetime_now : M datetime :=
  fun w => (Ok (local_now (clock w (clock_pos w))), tick_clock w).

(** [print(msg)] *)
Definition print (msg : string) : M unit :=
  fun w => (Ok tt, mk_World (logs_dir_exists w) (files w) (clock w) (clock_pos w)
                            (io w) (io_pos w) (stdout w ++ [msg]) (stderr w)).

(** [logger.log(levelno, message)] with the root level set to [INFO] (20) by
    [logging.basicConfig]. *)
Definition logger_log (levelno : Z) (levelname message : string) : M unit :=
  fun w =>
    (Ok tt,
     if 20 <=? levelno
     then mk_World (logs_dir_exists w) (files w) (clock w) (clock_pos w) (io w)
                   (io_pos w) (stdout w) (stderr w ++ [(levelname, message)])
     else w).

Definition file_text (name : string) (w : World) : string :=
  default EmptyString (files w !! name).

(** [with open(name, "a") as f: f.write(text)] *)
Definition open_append (name text : string) : M unit :=
  fun w =>
    let outcome := io w (io_pos w) in
    let w := tick_io w in
    if negb (logs_dir_exists w) then (Raise (OSError 2), w)
    else
      match outcome with
      | OpenRaises e => (Raise e, w)
      | TransferRaises e n =>
          (Raise e,
           set_files (<[name := file_text name w +:+ String.substring 0 n text]> (files w)) w)
      | IoOk =>
          (Ok tt, set_files (<[name := file_text name w +:+ text]> (files w)) w)
      end.

(** [with open(name, "r") as f: lines = f.readlines()] *)
Definition open_readlines (name : string) : M (list string) :=
  fun w =>
    let outcome := io w (io_pos w) in
    let w := tick_io w in
    if negb (logs_dir_exists w) then (Raise (OSError 2), w)
    else
      match files w !! name with
      | None => (Raise (OSError 2), w)
      | Some content =>
          match outcome with
          | OpenRaises e => (Raise e, w)
          | TransferRaises e _ => (Raise e, w)
          | IoOk => (Ok (readlines content), w)
          end
      end.

(** [logs_dir.mkdir(exist_ok=True)] *)
Definition mkdir_exist_ok : M unit :=
  fun w =>
    if logs_dir_exists w then (Ok tt, w)
    else
      let outcome := io w (io_pos w) in
      let w := tick_io w in
      match outcome with
      | IoOk => (Ok tt, set_logs_dir_exists true w)
      | OpenRaises e | TransferRaises e _ => (Raise e, w)
      end.

(** ** The program *)

Record FileLogger : Type := mk_FileLogger {
  service_name : string
}.

(** What the middleware reads of a request: [query_params] is the dict
    [dict(request.query_params)] makes, [client] is [request.client.host] when
    there is a client. *)
Record Request : Type := mk_Request {
  method : string;
  path : string;
  query_params : list (string * string);
  client : option string
}.

(** [{"error": "Failed to fetch logs"}] *)
Definition fetch_failed : json := JObj [("error", JStr "Failed to fetch logs")].

Section Program.
Context {RT : PyRuntime}.

(** [FileLogger.__init__] *)
Definition FileLogger_init (service_name : string) : M FileLogger :=
  mkdir_exist_ok ;;;
  ret (mk_FileLogger service_name).

(** [FileLogger._get_log_file]: the name of the file inside [self.logs_dir]. *)
Definition _get_log_file (self : FileLogger) : M string :=
  today <- datetime_now ;;
  ret (strftime_Ymd today +:+ ".log").

(** [data or {}] *)
Definition data_or_empty (data : option (list (string * json))) : list (string * json) :=
  match data with
  | Some members => members
  | None => []
  end.

(** The dict built at the top of [_write_log]. *)
Definition log_entry_of (self : FileLogger) (now : datetime) (level message : string)
    (data : option (list (string * json))) : json :=
  JObj [("timestamp", JStr (isoformat now));
        ("level", JStr (str_lower level));
        ("service", JStr (service_name self));
        ("message", JStr message);
        ("data", JObj (data_or_empty data))].

(** [FileLogger._write_log] *)
Definition _write_log (self : FileLogger) (level message : string)
    (data : option (list (string * json))) : M unit :=
  try_except
    (now <- datetime_now ;;
     let log_entry := log_entry_of self now level message data in
     log_file <- _get_log_file self ;;
     open_append log_file (json_dumps log_entry +:+ newline))
    (fun e => print ("Failed to write log: " +:+ exn_str e)).

(** [FileLogger.info], [error], [warn], [debug] *)
Definition FileLogger_info (self : FileLogger) (message : string)
    (data : option (list (string * json))) : M unit :=
  _write_log self "info" message data ;;;
  logger_log 20 "INFO" message.

Definition FileLogger_error (self : FileLogger) (message : string)
    (data : option (list (string * json))) : M unit :=
  _write_log self "error" message data ;;;
  logger_log 40 "ERROR" message.

Definition FileLogger_warn (self : FileLogger) (message : string)
    (data : option (list (string * json))) : M unit :=
  _write_log self "warn" message data ;;;
  logger_log 30 "WARNING" message.

Definition FileLogger_debug (self : FileLogger) (message : string)
    (data : option (list (string * json))) : M unit :=
  _write_log self "debug" message data ;;;
  logger_log 10 "DEBUG" message.

(** [file_logger = FileLogger()]; its construction runs [FileLogger_init]. *)
Definition file_logger : FileLogger := mk_FileLogger "python".

(** The [data] dict [log_requests] passes on. *)
Definition request_data (request : Request) : list (string * json) :=
  [("method", JStr (method request));
   ("path", JStr (path request));
   ("query_params", JObj (map (fun kv => (fst kv, JStr (snd kv))) (query_params request)));
   ("client_host", JStr (default "unknown" (client request)))].

(** The [log_requests] middleware around the handler [call_next]. *)
Definition log_requests {R} (request : Request) (call_next : Request -> M R) : M R :=
  FileLogger_info file_logger (method request +:+ " " +:+ path request)
                  (Some (request_data request)) ;;;
  response <- call_next request ;;
  ret response.

(** [GET /health] *)
Definition health : M json :=
  FileLogger_info file_logger "Health check requested" None ;;;
  ret (JObj [("status", JStr "ok"); ("service", JStr "python")]).

(** The loop of [get_logs] over the lines read: a blank line and a line that
    raises [json.JSONDecodeError] are skipped, any other exception leaves the
    loop. *)
Fixpoint parse_lines (lines : list string) : result (list json) :=
  match lines with
  | [] => Ok []
  | line :: rest =>
      let line := str_strip line in
      if decide (line = EmptyString) then parse_lines rest
      else
        match json_loads line with
        | Ok log_entry =>
            let? logs := parse_lines rest in
            Ok (log_entry :: logs)
        | Raise e => if is_JSONDecodeError e then parse_lines rest else Raise e
        end
  end.

(** [log.get("level") == wanted] *)
Definition level_is (wanted : string) (log : json) : result bool :=
  match log with
  | JObj members =>
      Ok (match dict_lookup "level" members with
          | Some v => py_eq_str v wanted
          | None => false
          end)
  | _ => Raise (AttributeError log "get")
  end.

(** [if level: logs = [log for log in logs if log.get("level") == level.lower()]] *)
Definition apply_level (level : option string) (logs : list json) : result (list json) :=
  match level with
  | None => Ok logs
  | Some l =>
      if decide (l = EmptyString) then Ok logs
      else comprehension_if (level_is (str_lower l)) logs
  end.

(** [log[key]] *)
Definition subscript (log : json) (key : string) : result json :=
  match log with
  | JObj members =>
      match dict_lookup key members with
      | Some v => Ok v
      | None => Raise (KeyError key)
      end
  | _ => Raise (TypeError_subscript log)
  end.

(** [datetime.fromisoformat(v.replace('Z', '+00:00'))] *)
Definition parse_iso (v : json) : result datetime :=
  match v with
  | JStr s =>
      match fromisoformat (str_replace_char "Z" "+00:00" s) with
      | Some t => Ok t
      | None => Raise ValueError
      end
  | _ => Raise (AttributeError v "replace")
  end.

(** [datetime.fromisoformat(log["timestamp"].replace('Z', '+00:00')) >= since_dt] *)
Definition not_before (since_dt : datetime) (log : json) : result bool :=
  let? ts := subscript log "timestamp" in
  let? t := parse_iso ts in
  datetime_ge t since_dt.

(** The [if since:] block with its [except ValueError: pass]: when the body
    raises a [ValueError], [logs] keeps its value. *)
Definition apply_since (since : option string) (logs : list json) : result (list json) :=
  match since with
  | None => Ok logs
  | Some s =>
      if decide (s = EmptyString) then Ok logs
      else
        match (let? since_dt := parse_iso (JStr s) in
               comprehension_if (not_before since_dt) logs) with
        | Ok kept => Ok kept
        | Raise e => if is_ValueError e then Ok logs else Raise e
        end
  end.

(** The body of the [try] in [get_logs]. *)
Definition get_logs_try (tail : Z) (level since : option string) : M json :=
  fun w =>
    if negb (logs_dir_exists w) then (Ok (JArr []), w)
    else
      (today <- datetime_now ;;
       let log_file := strftime_Ymd today +:+ ".log" in
       fun w =>
         match files w !! log_file with
         | None => (Ok (JArr []), w)
         | Some _ =>
             (lines <- open_readlines log_file ;;
              logs <- lift (parse_lines lines) ;;
              logs <- lift (apply_level level logs) ;;
              logs <- lift (apply_since since logs) ;;
              ret (JArr (py_slice_from (- tail) logs))) w
         end) w.

(** [GET /logs] *)
Definition get_logs (tail : Z) (level since : option string) : M json :=
  try_except
    (get_logs_try tail level since)
    (fun e =>
       FileLogger_error file_logger ("Failed to fetch logs: " +:+ exn_str e) None ;;;
       ret fetch_failed).

End Program.

(** ** A reference runtime

    The library calls as CPython 3.11 answers them on ASCII text with integer
    JSON numbers, the limit of 4300 digits on an integer literal included
    (floats, non-ASCII characters, the [NaN]/[Infinity] literals and the
    recursion limit on nested JSON are not covered; [fromisoformat] covers
    [YYYY-MM-DD[*HH[:MM[:SS[.fff[fff]]]][+HH:MM[:SS]]]]). It serves to run the
    program on concrete inputs. *)

Module Ref.

Definition DQ : ascii := ascii_of_nat 34.
Definition BS : ascii := ascii_of_nat 92.

Definition lower_char (c : ascii) : ascii :=
  let n := nat_of_ascii c in
  if (65 <=? n)%nat && (n <=? 90)%nat then ascii_of_nat (n + 32) else c.

Fixpoint lower (s : string) : string :=
  match s with
  | EmptyString => EmptyString
  | String c rest => String (lower_char c) (lower rest)
  end.

(** [str.isspace] on ASCII: TAB to CR, FS to US, and the space. *)
Definition is_space (c : ascii) : bool :=
  let n := nat_of_ascii c in
  ((9 <=? n)%nat && (n <=? 13)%nat) || ((28 <=? n)%nat && (n <=? 32)%nat).

Fixpoint lstrip (s : string) : string :=
  match s with
  | EmptyString => EmptyString
  | String c rest => if is_space c then lstrip rest else s
  end.

Fixpoint rstrip (s : string) : string :=
  match s with
  | EmptyString => EmptyString
  | String c rest =>
      match rstrip rest with
      | EmptyString => if is_space c then EmptyString else String c EmptyString
      | r => String c r
      end
  end.

Definition strip (s : string) : string := rstrip (lstrip s).

(** *** [json.dumps] with its defaults ([ensure_ascii], [", "] and [": "]) *)

Definition hex_digit (n : nat) : ascii :=
  ascii_of_nat (if (n <? 10)%nat then 48 + n else 87 + n).

Definition escape_char (c : ascii) : string :=
  let n := nat_of_ascii c in
  if Ascii.eqb c DQ then String BS (String DQ EmptyString)
  else if Ascii.eqb c BS then String BS (String BS EmptyString)
  else if (n =? 10)%nat then String BS "n"
  else if (n =? 13)%nat then String BS "r"
  else if (n =? 9)%nat then String BS "t"
  else if (n =? 8)%nat then String BS "b"
  else if (n =? 12)%nat then String BS "f"
  else if (32 <=? n)%nat && (n <=? 126)%nat then String c EmptyString
  else String BS ("u00" +:+ String (hex_digit (n / 16)) (String (hex_digit (n mod 16)) EmptyString)).

Fixpoint escape (s : string) : string :=
  match s with
  | EmptyString => EmptyString
  | String c rest => escape_char c +:+ escape rest
  end.

Definition quote (s : string) : string :=
  String DQ (escape s +:+ String DQ EmptyString).

Fixpoint dumps (v : json) : string :=
  match v with
  | JNull => "null"
  | JBool true => "true"
  | JBool false => "false"
  | JInt z => decimal z
  | JFloat r => r
  | JStr s => quote s
  | JArr items =>
      "[" +:+
      (fix go (xs : list json) : string :=
         match xs with
         | [] => EmptyString
         | x :: rest =>
             dumps x +:+ match rest with [] => EmptyString | _ => ", " +:+ go rest end
         end) items +:+ "]"
  | JObj members =>
      "{" +:+
      (fix go (ms : list (string * json)) : string :=
         match ms with
         | [] => EmptyString
         | (k, x) :: rest =>
             quote k +:+ ": " +:+ dumps x
               +:+ match rest with [] => EmptyString | _ => ", " +:+ go rest end
         end) members +:+ "}"
  end.

(** *** [json.loads] *)

Definition is_json_ws (c : ascii) : bool :=
  let n := nat_of_ascii c in
  (n =? 32)%nat || (n =? 9)%nat || (n =? 10)%nat || (n =? 13)%nat.

Fixpoint skip_ws (s : string) : string :=
  match s with
  | String c rest => if is_json_ws c then skip_ws rest else s
  | EmptyString => EmptyString
  end.

Definition is_digit (c : ascii) : bool :=
  let n := nat_of_ascii c in (48 <=? n)%nat && (n <=? 57)%nat.

Definition digit_val (c : ascii) : Z := Z.of_nat (nat_of_ascii c) - 48.

Definition hex_val (c : ascii) : option nat :=
  let n := nat_of_ascii c in
  if (48 <=? n)%nat && (n <=? 57)%nat then Some (n - 48)%nat
  else if (97 <=? n)%nat && (n <=? 102)%nat then Some (n - 87)%nat
  else if (65 <=? n)%nat && (n <=? 70)%nat then Some (n - 55)%nat
  else None.

(** After the opening quote: the decoded text and what follows the closing
    quote. Only escapes of characters below 256 are decoded. *)
Fixpoint scan_string (s : string) : option (string * string) :=
  match s with
  | EmptyString => None
  | String c rest =>
      if Ascii.eqb c DQ then Some (EmptyString, rest)
      else if Ascii.eqb c BS then
        match rest with
        | String e rest' =>
            let simple (d : ascii) :=
              match scan_string rest' with
              | Some (t, r) => Some (String d t, r)
              | None => None
              end in
            if Ascii.eqb e DQ then simple DQ
            else if Ascii.eqb e BS then simple BS
            else if Ascii.eqb e "/" then simple "/"%char
            else if Ascii.eqb e "n" then simple (ascii_of_nat 10)
            else if Ascii.eqb e "r" then simple (ascii_of_nat 13)
            else if Ascii.eqb e "t" then simple (ascii_of_nat 9)
            else if Ascii.eqb e "b" then simple (ascii_of_nat 8)
            else if Ascii.eqb e "f" then simple (ascii_of_nat 12)
            else if Ascii.eqb e "u" then
              match rest' with
              | String "0" (String "0" (String h (String l rest''))) =>
                  match hex_val h, hex_val l, scan_string rest'' with
                  | Some a, Some b, Some (t, r) =>
                      Some (String (ascii_of_nat (16 * a + b)) t, r)
                  | _, _, _ => None
                  end
              | _ => None
              end
            else None
        | EmptyString => None
        end
      else if (nat_of_ascii c <? 32)%nat then None
      else
        match scan_string rest with
        | Some (t, r) => Some (String c t, r)
        | None => None
        end
  end.

Fixpoint scan_digits (acc : Z) (s : string) : Z * string :=
  match s with
  | String c rest =>
      if is_digit c then scan_digits (acc * 10 + digit_val c) rest else (acc, s)
  | EmptyString => (acc, s)
  end.

(** An optional minus sign, then [0] or digits that do not start with [0]. *)
Definition scan_int (s : string) : option (Z * string) :=
  let unsigned (t : string) : option (Z * string) :=
    match t with
    | String c rest =>
        if Ascii.eqb c "0" then Some (0, rest)
        else if is_digit c then Some (scan_digits 0 t)
        else None
    | EmptyString => None
    end in
  match s with
  | String "-" rest =>
      match unsigned rest with
      | Some (n, r) => Some (- n, r)
      | None => None
      end
  | _ => unsigned s
  end.

Fixpoint strip_prefix (p s : string) : option string :=
  match p, s with
  | EmptyString, _ => Some s
  | String a p', String b s' => if Ascii.eqb a b then strip_prefix p' s' else None
  | _, _ => None
  end.

(** [d[k] = v] on the members of a dict: an existing key keeps its place. *)
Fixpoint dict_set (k : string) (v : json) (ms : list (string * json)) : list (string * json) :=
  match ms with
  | [] => [(k, v)]
  | (k', v') :: rest =>
      if String.eqb k' k then (k, v) :: rest else (k', v') :: dict_set k v rest
  end.

(** The outcome of scanning one value: the value with the text after it, text
    that is not JSON, or an exception of another kind. *)
Inductive scanned : Type :=
  | Scanned (v : json) (rest : string)
  | Malformed
  | Refused (e : exn).

(** [sys.int_info.default_max_str_digits] *)
Definition max_str_digits : nat := 4300.

(** The digits of the integer literal that starts [t] and ends before [r]. *)
Definition literal_digits (t r : string) : nat :=
  match t with
  | String "-" _ => (String.length t - String.length r - 1)%nat
  | _ => (String.length t - String.length r)%nat
  end.

Fixpoint scan_value (fuel : nat) (s : string) : scanned :=
  match fuel with
  | O => Malformed
  | S fuel' =>
      match skip_ws s with
      | EmptyString => Malformed
      | String c rest as t =>
          if Ascii.eqb c DQ then
            match scan_string rest with
            | Some (txt, r) => Scanned (JStr txt) r
            | None => Malformed
            end
          else if Ascii.eqb c "[" then
            match skip_ws rest with
            | String "]" r => Scanned (JArr []) r
            | body => scan_items fuel' [] body
            end
          else if Ascii.eqb c "{" then
            match skip_ws rest with
            | String "}" r => Scanned (JObj []) r
            | body => scan_members fuel' [] body
            end
          else
            match strip_prefix "null" t, strip_prefix "true" t, strip_prefix "false" t with
            | Some r, _, _ => Scanned JNull r
            | _, Some r, _ => Scanned (JBool true) r
            | _, _, Some r => Scanned (JBool false) r
            | _, _, _ =>
                match scan_int t with
                | Some (n, r) =>
                    match r with
                    | String "." _ | String "e" _ | String "E" _ => Malformed
                    | _ =>
                        if (max_str_digits <? literal_digits t r)%nat
                        then Refused (ValueError_int_digits (literal_digits t r))
                        else Scanned (JInt n) r
                    end
                | None => Malformed
                end
            end
      end
  end
with scan_items (fuel : nat) (acc : list json) (s : string) : scanned :=
  match fuel with
  | O => Malformed
  | S fuel' =>
      match scan_value fuel' s with
      | Scanned v r =>
          match skip_ws r with
          | String "," r' => scan_items fuel' (acc ++ [v]) r'
          | String "]" r' => Scanned (JArr (acc ++ [v])) r'
          | _ => Malformed
          end
      | other => other
      end
  end
with scan_members (fuel : nat) (acc : list (string * json)) (s : string) : scanned :=
  match fuel with
  | O => Malformed
  | S fuel' =>
      match skip_ws s with
      | String c rest =>
          if Ascii.eqb c DQ then
            match scan_string rest with
            | Some (k, r) =>
                match skip_ws r with
                | String ":" r' =>
                    match scan_value fuel' r' with
                    | Scanned v r'' =>
                        match skip_ws r'' with
                        | String "," r3 => scan_members fuel' (dict_set k v acc) r3
                        | String "}" r3 => Scanned (JObj (dict_set k v acc)) r3
                        | _ => Malformed
                        end
                    | other => other
                    end
                | _ => Malformed
                end
            | None => Malformed
            end
          else Malformed
      | EmptyString => Malformed
      end
  end.

Definition loads (s : string) : result json :=
  match scan_value (S (String.length s)) s with
  | Scanned v r =>
      match skip_ws r with
      | EmptyString => Ok v
      | _ => Raise JSONDecodeError
      end
  | Malformed => Raise JSONDecodeError
  | Refused e => Raise e
  end.

(** *** [datetime.fromisoformat] *)

Fixpoint take_digits (n : nat) (acc : Z) (s : string) : option (Z * string) :=
  match n with
  | O => Some (acc, s)
  | S k =>
      match s with
      | String c rest =>
          if is_digit c then take_digits k (acc * 10 + digit_val c) rest else None
      | EmptyString => None
      end
  end.

Definition days_in_month (y m : Z) : Z :=
  match m with
  | 2 => if is_leap y then 29 else 28
  | 4 | 6 | 9 | 11 => 30
  | _ => 31
  end.

(** [HH[:MM[:SS[.fff[fff]]]]], the whole of [s]. *)
Definition scan_hh_mm_ss_ff (s : string) : option (Z * Z * Z * Z) :=
  match take_digits 2 0 s with
  | Some (h, EmptyString) => Some (h, 0, 0, 0)
  | Some (h, String ":" r1) =>
      match take_digits 2 0 r1 with
      | Some (m, EmptyString) => Some (h, m, 0, 0)
      | Some (m, String ":" r2) =>
          match take_digits 2 0 r2 with
          | Some (sec, EmptyString) => Some (h, m, sec, 0)
          | Some (sec, String "." r3) =>
              match String.length r3, take_digits (String.length r3) 0 r3 with
              | 3%nat, Some (f, _) => Some (h, m, sec, f * 1000)
              | 6%nat, Some (f, _) => Some (h, m, sec, f)
              | _, _ => None
              end
          | _ => None
          end
      | _ => None
      end
  | _ => None
  end.

(** The text before and after the first [c] in [s]. *)
Fixpoint split_at (c : ascii) (s : string) : option (string * string) :=
  match s with
  | EmptyString => None
  | String d rest =>
      if Ascii.eqb c d then Some (EmptyString, rest)
      else
        match split_at c rest with
        | Some (a, b) => Some (String d a, b)
        | None => None
        end
  end.

Definition scan_offset (negative : bool) (tz : string) : option Z :=
  match String.length tz with
  | 5%nat | 8%nat =>
      match scan_hh_mm_ss_ff tz with
      | Some (h, m, sec, _) =>
          let off := h * 3600 + m * 60 + sec in
          if off <? 86400 then Some (if negative then - off else off) else None
      | None => None
      end
  | _ => None
  end.

Definition scan_time (t : string) : option (Z * Z * Z * Z * option Z) :=
  let finish (clock : string) (off : option (option Z)) :=
    match scan_hh_mm_ss_ff clock, off with
    | Some (h, m, sec, us), Some o =>
        if (h <? 24) && (m <? 60) && (sec <? 60) then Some (h, m, sec, us, o) else None
    | _, _ => None
    end in
  match split_at "-" t, split_at "+" t with
  | Some (clock, tz), _ =>
      finish clock (match scan_offset true tz with Some o => Some (Some o) | None => None end)
  | None, Some (clock, tz) =>
      finish clock (match scan_offset false tz with Some o => Some (Some o) | None => None end)
  | None, None => finish t (Some None)
  end.

Definition iso_parse (s : string) : option datetime :=
  match take_digits 4 0 s with
  | Some (y, String "-" r1) =>
      match take_digits 2 0 r1 with
      | Some (m, String "-" r2) =>
          match take_digits 2 0 r2 with
          | Some (d, r3) =>
              if (1 <=? y) && (1 <=? m) && (m <=? 12) && (1 <=? d)
                 && (d <=? days_in_month y m)
              then
                match r3 with
                | EmptyString | String _ EmptyString =>
                    Some (mk_datetime y m d 0 0 0 0 None)
                | String _ t =>
                    match scan_time t with
                    | Some (h, mi, sec, us, off) =>
                        Some (mk_datetime y m d h mi sec us off)
                    | None => None
                    end
                end
              else None
          | None => None
          end
      | _ => None
      end
  | _ => None
  end.

(** *** [str(e)] *)

Definition type_name (v : json) : string :=
  match v with
  | JNull => "NoneType"
  | JBool _ => "bool"
  | JInt _ => "int"
  | JFloat _ => "float"
  | JStr _ => "str"
  | JArr _ => "list"
  | JObj _ => "dict"
  end.

Definition exn_text (e : exn) : string :=
  match e with
  | OSError n => "[Errno " +:+ decimal n +:+ "]"
  | UnicodeDecodeError => "'utf-8' codec can't decode byte"
  | ValueError => "Invalid isoformat string"
  | ValueError_int_digits n =>
      "Exceeds the limit (4300 digits) for integer string conversion: value has "
        +:+ decimal (Z.of_nat n)
        +:+ " digits; use sys.set_int_max_str_digits() to increase the limit"
  | JSONDecodeError => "Expecting value: line 1 column 1 (char 0)"
  | RecursionError => "maximum recursion depth exceeded while decoding a JSON array"
  | KeyError k => "'" +:+ k +:+ "'"
  | TypeError_subscript (JArr _) => "list indices must be integers or slices, not str"
  | TypeError_subscript (JStr _) => "string indices must be integers"
  | TypeError_subscript v => "'" +:+ type_name v +:+ "' object is not subscriptable"
  | TypeError_compare => "can't compare offset-naive and offset-aware datetimes"
  | AttributeError v attr =>
      "'" +:+ type_name v +:+ "' object has no attribute '" +:+ attr +:+ "'"
  end.

Definition runtime : PyRuntime := {|
  str_lower := lower;
  str_strip := strip;
  json_dumps := dumps;
  json_loads := loads;
  fromisoformat := iso_parse;
  exn_str := exn_text
|}.

End Ref.

(** ** Vocabulary of the statements *)

(** No ["\n"] and no ["\r"] in [s]. *)
Fixpoint no_line_break (s : string) : bool :=
  match s with
  | EmptyString => true
  | String c rest => negb (Ascii.eqb c LF) && negb (Ascii.eqb c CR) && no_line_break rest
  end.

(** The world after one successful append of [text] to the file [name]. *)
Definition appended (name text : string) (w : World) : World :=
  mk_World (logs_dir_exists w) (<[name := file_text name w +:+ text]> (files w))
           (clock w) (S (S (clock_pos w))) (io w) (S (io_pos w))
           (stdout w) (stderr w).

(** The file name derived from the clock reading number [i]. *)
Definition log_file_at (w : World) (i : nat) : string :=
  strftime_Ymd (local_now (clock w i)) +:+ ".log".

Definition is_object (v : json) : bool :=
  match v with
  | JObj _ => true
  | _ => false
  end.

(** [log] is a dict whose ["level"] is the string [wanted]. *)
Definition has_level (wanted : string) (log : json) : bool :=
  match log with
  | JObj members =>
      match dict_lookup "level" members with
      | Some (JStr t) => String.eqb t wanted
      | _ => false
      end
  | _ => false
  end.

Section Vocabulary.
Context {RT : PyRuntime}.

(** What the level filter leaves of a list of dicts. *)
Definition level_kept (level : option string) (logs : list json) : list json :=
  match level with
  | None => logs
  | Some l =>
      if decide (l = EmptyString) then logs
      else List.filter (has_level (str_lower l)) logs
  end.

(** [since] is absent, empty, or not accepted by [fromisoformat] once its
    ['Z'] are replaced: the cases in which no comparison is attempted. *)
Definition since_ignored (since : option string) : Prop :=
  match since with
  | None => True
  | Some s =>
      s = EmptyString \/ fromisoformat (str_replace_char "Z" "+00:00" s) = None
  end.

(** The records [get_logs] holds right before it applies [tail] ([[]] on the
    two early returns), or the exception that ends its [try] block. *)
Definition filtered_logs (level since : option string) (w : World) : result (list json) :=
  if negb (logs_dir_exists w) then Ok []
  else
    match files w !! log_file_at w (clock_pos w) with
    | None => Ok []
    | Some content =>
        match io w (io_pos w) with
        | IoOk =>
            let? parsed := parse_lines (readlines content) in
            let? logs := apply_level level parsed in
            apply_since since logs
        | OpenRaises e | TransferRaises e _ => Raise e
        end
    end.

(** A record survives the trip through the file: its JSON text has no line
    break and reads back as the record. *)
Definition storable (entry : json) : Prop :=
  no_line_break (json_dumps entry) = true
  /\ str_strip (json_dumps entry +:+ newline) <> EmptyString
  /\ json_loads (str_strip (json_dumps entry +:+ newline)) = Ok entry.

(** A run of [_write_log] calls, and the entries those calls build when the
    clock is at reading [pos] (each call reads the clock twice). *)
Fixpoint write_logs (self : FileLogger)
    (calls : list (string * string * option (list (string * json)))) : M unit :=
  match calls with
  | [] => ret tt
  | (level, message, data) :: rest =>
      _write_log self level message data ;;;
      write_logs self rest
  end.

(** The text the entries occupy in the file, one line each. *)
Fixpoint lines_of (entries : list json) : string :=
  match entries with
  | [] => EmptyString
  | entry :: rest => (json_dumps entry +:+ newline) +:+ lines_of rest
  end.

Fixpoint entries_of (self : FileLogger) (clk : nat -> reading) (pos : nat)
    (calls : list (string * string * option (list (string * json)))) : list json :=
  match calls with
  | [] => []
  | (level, message, data) :: rest =>
      log_entry_of self (local_now (clk pos)) level message data
        :: entries_of self clk (S (S pos)) rest
  end.

End Vocabulary.

(** ** The shared library and the served route

    [src/templates/libs/python/utils.py] and [models.py], and [GET /logs] as
    the application serves it, behind the middleware. *)

(** [datetime.datetime.utcnow()]: the UTC view of the next clock reading. *)
Definition datetime_utcnow : M datetime :=
  fun w => (Ok (utc_now (clock w (clock_pos w))), tick_clock w).

(** [utils.format_response]; [message] is added when it is truthy. *)
Definition format_response (data : json) (status : string) (message : option string)
    : M json :=
  now <- datetime_utcnow ;;
  let response :=
    [("status", JStr status); ("timestamp", JStr (isoformat now)); ("data", data)] in
  ret (JObj (match message with
             | Some m =>
                 if decide (m = EmptyString) then response
                 else response ++ [("message", JStr m)]
             | None => response
             end)).

(** [key in config] *)
Definition dict_contains (key : string) (config : list (string * json)) : bool :=
  match dict_lookup key config with
  | Some _ => true
  | None => false
  end.

(** [utils.validate_config], for string keys. *)
Definition validate_config (config : list (string * json)) (required_keys : list string)
    : bool :=
  forallb (fun key => dict_contains key config) required_keys.

Module Models.

(** [models.BaseModel] *)
Record BaseModel : Type := mk_BaseModel {
  id : option string;
  created_at : option datetime;
  updated_at : option datetime
}.

(** [BaseModel.__post_init__], which the dataclass runs after [__init__]. *)
Definition __post_init__ (self : BaseModel) : M BaseModel :=
  self <- match created_at self with
          | None =>
              now <- datetime_utcnow ;;
              ret (mk_BaseModel (id self) (Some now) (updated_at self))
          | Some _ => ret self
          end ;;
  match updated_at self with
  | None =>
      now <- datetime_utcnow ;;
      ret (mk_BaseModel (id self) (created_at self) (Some now))
  | Some _ => ret self
  end.

(** [BaseModel(id, created_at, updated_at)] *)
Definition new (id : option string) (created_at updated_at : option datetime)
    : M BaseModel :=
  __post_init__ (mk_BaseModel id created_at updated_at).

End Models.

Definition is_aware (t : datetime) : bool :=
  match utcoffset t with
  | Some _ => true
  | None => false
  end.

Section Served.
Context {RT : PyRuntime}.

(** [GET /logs?tail=..&level=..&since=..] through [log_requests]. *)
Definition serve_logs (request : Request) (tail : Z) (level since : option string)
    : M json :=
  log_requests request (fun _ => get_logs tail level since).

(** The world [get_logs] leaves its [try] block in: untouched without a log
    directory, one clock reading later without a partition, and one [open]
    later otherwise. *)
Definition after_try (w : World) : World :=
  if logs_dir_exists w then
    match files w !! log_file_at w (clock_pos w) with
    | Some _ => tick_io (tick_clock w)
    | None => tick_clock w
    end
  else w.

(** The instant a record carries, as the [since] filter reads it. *)
Definition timestamp_of (log : json) : option datetime :=
  match log with
  | JObj members =>
      match dict_lookup "timestamp" members with
      | Some (JStr ts) => fromisoformat (str_replace_char "Z" "+00:00" ts)
      | _ => None
      end
  | _ => None
  end.

(** The record has an instant that compares with [since_dt] and is not
    before it. *)
Definition at_or_after (since_dt : datetime) (log : json) : bool :=
  match timestamp_of log with
  | Some t =>
      match datetime_ge t since_dt with
      | Ok b => b
      | Raise _ => false
      end
  | None => false
  end.

(** The [since] comparison of the record cannot end the query: the record is
    a dict with a string timestamp that either does not parse or parses with
    the timezone awareness of [since_dt]. *)
Definition since_safe (since_dt : datetime) (log : json) : bool :=
  match log with
  | JObj members =>
      match dict_lookup "timestamp" members with
      | Some (JStr ts) =>
          match fromisoformat (str_replace_char "Z" "+00:00" ts) with
          | Some t => Bool.eqb (is_aware t) (is_aware since_dt)
          | None => true
          end
      | _ => false
      end
  | _ => false
  end.

Definition has_timestamp (log : json) : bool :=
  match timestamp_of log with
  | Some _ => true
  | None => false
  end.

(** What the [since] step leaves of records that are all [since_safe]: the
    records not before [since] when every timestamp parses, and all of them
    (the filter is dropped) when [since] is not used or some timestamp does
    not parse. *)
Definition since_kept (since : option string) (survivors : list json) : list json :=
  match since with
  | None => survivors
  | Some s =>
      if decide (s = EmptyString) then survivors
      else
        match fromisoformat (str_replace_char "Z" "+00:00" s) with
        | None => survivors
        | Some since_dt =>
            if forallb has_timestamp survivors
            then List.filter (at_or_after since_dt) survivors
            else survivors
        end
  end.

(** With a level filter in use, every parsed value is a dict. *)
Definition level_tolerates (level : option string) (logs : list json) : Prop :=
  match level with
  | None => True
  | Some l => l = EmptyString \/ forallb is_object logs = true
  end.

(** With a [since] that parses, every record the level filter kept is
    [since_safe]. *)
Definition since_tolerates (since : option string) (survivors : list json) : Prop :=
  match since with
  | None => True
  | Some s =>
      s = EmptyString
      \/ match fromisoformat (str_replace_char "Z" "+00:00" s) with
         | None => True
         | Some since_dt => forallb (since_safe since_dt) survivors = true
         end
  end.

(** What the parse loop makes of one line: [Some v] when it appends [v],
    [None] when it skips the line, which is blank once stripped or raises
    [json.JSONDecodeError]. *)
Definition line_reads (line : string) (outcome : option json) : Prop :=
  match outcome with
  | Some v =>
      str_strip line <> EmptyString /\ json_loads (str_strip line) = Ok v
  | None =>
      str_strip line = EmptyString
      \/ json_loads (str_strip line) = Raise JSONDecodeError
  end.

(** The values appended, in order. *)
Fixpoint kept_values (outcomes : list (option json)) : list json :=
  match outcomes with
  | [] => []
  | Some v :: rest => v :: kept_values rest
  | None :: rest => kept_values rest
  end.

End Served.

(** ** Concrete worlds

    Worlds on the reference runtime: the log directory exists, every clock
    reading is the same instant, and no I/O fails. *)

Module Examples.

Definition noon : datetime := mk_datetime 2024 1 15 12 0 0 0 None.

(** A machine whose local time is UTC. *)
Definition fresh_world : World :=
  mk_World true ∅ (fun _ => mk_reading noon noon) 0 (fun _ => IoOk) 0 [] [].

(** The same machine with a partition for 2024-01-15 that holds [content]. *)
Definition world_of (content : string) : World :=
  mk_World true {[ "2024-01-15.log" := content ]}
           (fun _ => mk_reading noon noon) 0 (fun _ => IoOk) 0 [] [].

(** A machine two hours east of UTC, half an hour before midnight UTC. *)
Definition east_world : World :=
  mk_World true ∅
           (fun _ => mk_reading (mk_datetime 2024 1 16 1 30 0 0 None)
                                (mk_datetime 2024 1 15 23 30 0 0 None))
           0 (fun _ => IoOk) 0 [] [].

Definition line_of (v : json) : string := Ref.dumps v +:+ newline.

Definition record (ts level message : string) : json :=
  JObj [("timestamp", JStr ts); ("level", JStr level); ("service", JStr "python");
        ("message", JStr message); ("data", JObj [])].

Definition three_calls : list (string * string * option (list (string * json))) :=
  [("INFO", "service started", Some [("port", JInt 3004)]);
   ("error", "boom", None);
   ("warn", "careful", Some [("k", JStr "v")])].

Definition r1 : json := record "2024-01-15T09:00:00" "info" "one".
Definition r2 : json := record "2024-01-15T10:00:00" "error" "two".
Definition r3 : json := record "2024-01-15T11:00:00" "info" "three".

Definition three_records : string := line_of r1 +:+ line_of r2 +:+ line_of r3.

(** A record whose level was stored in upper case. *)
Definition loud : json := record "2024-01-15T09:00:00" "ERROR" "disk full".

(** JSON objects that are not log records. *)
Definition odd : json := JObj [("foo", JInt 1)].
Definition untimed : json := JObj [("message", JStr "no timestamp")].
Definition mistimed : json := JObj [("timestamp", JStr "not-a-time")].

Definition get_health : Request := mk_Request "GET" "/health" [] None.

(** The partition holds one line that is a JSON number. *)
Definition number_world : World := world_of ("42" +:+ newline).

(** No log directory. *)
Definition bare_world : World :=
  mk_World false ∅ (fun _ => mk_reading noon noon) 0 (fun _ => IoOk) 0 [] [].

(** The log directory is missing and cannot be made. *)
Definition locked_world : World :=
  mk_World false ∅ (fun _ => mk_reading noon noon) 0
           (fun _ => OpenRaises (OSError 13)) 0 [] [].

Definition get_logs_request : Request := mk_Request "GET" "/logs" [] None.

(** The machine two hours east with two partitions, one named by the UTC
    date and one by the local date. *)
Definition east_archive (utc_day local_day : string) : World :=
  set_files {[ "2024-01-15.log" := utc_day; "2024-01-16.log" := local_day ]}
            east_world.

(** An unclosed array that starts with an integer of 4301 digits: not JSON,
    and [json.loads] gives up on the integer before it sees that. *)
Definition overlong : string := "[1" +:+ zeros 4300.

End Examples.

(** * Properties *)

#[local] Arguments String.append !s1 s2 : simpl nomatch.

(** ** Strings and line splitting *)

Lemma append_assoc (a b c : string) : (a +:+ b) +:+ c = a +:+ (b +:+ c).
Proof. induction a as [|x a IH]; simpl; [reflexivity | f_equal; exact IH]. Qed.

Lemma append_empty_r (s : string) : s +:+ EmptyString = s.
Proof. induction s as [|x s IH]; simpl; [reflexivity | f_equal; exact IH]. Qed.

Lemma readlines_from_line (l rest cur : string) :
  no_line_break l = true ->
  readlines_from cur (l +:+ newline +:+ rest)
  = (cur +:+ l +:+ newline) :: readlines_from EmptyString rest.
Proof.
  revert cur. induction l as [|c l IH]; intros cur Hl; simpl in *.
  - reflexivity.
  - apply andb_prop in Hl as [Hc Hl]. apply andb_prop in Hc as [Hlf Hcr].
    apply negb_true_iff in Hlf, Hcr. rewrite Hlf, Hcr.
    rewrite IH by assumption. now rewrite append_assoc.
Qed.

(** ** [l[-tail:]] *)

Lemma py_slice_from_tail {A} (tail : Z) (l : list A) :
  0 < tail ->
  py_slice_from (- tail) l = drop (length l - Z.to_nat tail) l.
Proof.
  intros Ht. unfold py_slice_from.
  destruct (Z.ltb_spec (- tail) 0); [|lia]. f_equal. lia.
Qed.

Lemma py_slice_from_nil {A} (start : Z) : py_slice_from start (@nil A) = [].
Proof. unfold py_slice_from. apply drop_nil. Qed.

Lemma py_slice_from_all {A} (tail : Z) (l : list A) :
  Z.of_nat (length l) <= tail -> py_slice_from (- tail) l = l.
Proof.
  intros Ht. unfold py_slice_from.
  destruct (Z.ltb_spec (- tail) 0).
  - replace (Z.to_nat _) with 0%nat by lia. reflexivity.
  - assert (length l = 0%nat) as Hl by lia.
    destruct l; [|discriminate]. now rewrite drop_nil.
Qed.

Section Properties.
Context {RT : PyRuntime}.

(** ** The append path *)

(** Runs the body of [_write_log] up to the answer of the operating system. *)
Ltac step_write_log :=
  unfold _write_log, try_except, bind, _get_log_file, datetime_now, open_append,
    print, ret; simpl.

Lemma _write_log_returns (self : FileLogger) (level message : string)
    (data : option (list (string * json))) (w : World) :
  fst (_write_log self level message data w) = Ok tt.
Proof.
  step_write_log.
  destruct (logs_dir_exists w); simpl; [|reflexivity].
  destruct (io w (io_pos w)); reflexivity.
Qed.

Lemma _write_log_io_pos (self : FileLogger) (level message : string)
    (data : option (list (string * json))) (w : World) :
  io_pos (snd (_write_log self level message data w)) = S (io_pos w).
Proof.
  step_write_log.
  destruct (logs_dir_exists w); simpl; [|reflexivity].
  destruct (io w (io_pos w)); reflexivity.
Qed.

Lemma _write_log_written (self : FileLogger) (level message : string)
    (data : option (list (string * json))) (w : World) :
  logs_dir_exists w = true ->
  io w (io_pos w) = IoOk ->
  _write_log self level message data w
  = (Ok tt,
     appended (log_file_at w (S (clock_pos w)))
              (json_dumps (log_entry_of self (local_now (clock w (clock_pos w)))
                                        level message data) +:+ newline) w).
Proof.
  intros Hdir Hio.
  step_write_log. rewrite Hdir, Hio. reflexivity.
Qed.

(** A failing [open]: nothing reaches the file system, the exception ends on
    [stdout]. *)
Lemma _write_log_open_fails (self : FileLogger) (level message : string)
    (data : option (list (string * json))) (w : World) (e : exn) :
  logs_dir_exists w = true ->
  io w (io_pos w) = OpenRaises e ->
  files (snd (_write_log self level message data w)) = files w
  /\ stdout (snd (_write_log self level message data w))
     = stdout w ++ ["Failed to write log: " +:+ exn_str e].
Proof.
  intros Hdir Hio.
  step_write_log. rewrite Hdir, Hio. simpl. split; reflexivity.
Qed.

(** The directory is made by [__init__], outside any [try]: when that fails
    the exception leaves the constructor. *)
Lemma FileLogger_init_mkdir_fails (name : string) (w : World) (e : exn) :
  logs_dir_exists w = false ->
  io w (io_pos w) = OpenRaises e ->
  fst (FileLogger_init name w) = Raise e.
Proof.
  intros Hdir Hio. unfold FileLogger_init, bind, mkdir_exist_ok.
  rewrite Hdir, Hio. reflexivity.
Qed.

Lemma FileLogger_info_returns (self : FileLogger) (message : string)
    (data : option (list (string * json))) (w : World) :
  fst (FileLogger_info self message data w) = Ok tt.
Proof.
  unfold FileLogger_info, bind.
  pose proof (_write_log_returns self "info" message data w) as H.
  destruct (_write_log self "info" message data w) as [r w']. simpl in H. subst r.
  reflexivity.
Qed.

Lemma FileLogger_info_world (self : FileLogger) (message : string)
    (data : option (list (string * json))) (w : World) :
  snd (FileLogger_info self message data w)
  = snd (logger_log 20 "INFO" message (snd (_write_log self "info" message data w))).
Proof.
  unfold FileLogger_info, bind.
  pose proof (_write_log_returns self "info" message data w) as H.
  destruct (_write_log self "info" message data w) as [r w']. simpl in H. subst r.
  reflexivity.
Qed.

Lemma FileLogger_error_returns (self : FileLogger) (message : string)
    (data : option (list (string * json))) (w : World) :
  fst (FileLogger_error self message data w) = Ok tt.
Proof.
  unfold FileLogger_error, bind.
  pose proof (_write_log_returns self "error" message data w) as H.
  destruct (_write_log self "error" message data w) as [r w']. simpl in H. subst r.
  reflexivity.
Qed.

Lemma logger_log_io_pos (levelno : Z) (levelname message : string) (w : World) :
  io_pos (snd (logger_log levelno levelname message w)) = io_pos w.
Proof. unfold logger_log. simpl. destruct (20 <=? levelno); reflexivity. Qed.

(** The middleware runs the handler in the world its logging call left and
    returns the handler's outcome as it is. *)
Lemma log_requests_runs_handler (R : Type) (request : Request)
    (call_next : Request -> M R) (w : World) :
  log_requests request call_next w
  = call_next request
      (snd (FileLogger_info file_logger
              (method request +:+ " " +:+ path request)
              (Some (request_data request)) w)).
Proof.
  unfold log_requests, bind.
  pose proof (FileLogger_info_returns file_logger
                (method request +:+ " " +:+ path request)
                (Some (request_data request)) w) as H.
  destruct (FileLogger_info _ _ _ w) as [r w']. simpl in *. subst r.
  destruct (call_next request w') as [[a|e] w'']; reflexivity.
Qed.

(** C6. Whatever the operating system answers to the [open] and the write of
    an append (and also when the log directory is gone), [_write_log] and
    [FileLogger.info] return normally, and the middleware hands back exactly
    what the handler [call_next] returns, run in the world the logging call
    left. *)
Theorem append_failure_is_absorbed (R : Type) (self : FileLogger)
    (level message : string) (data : option (list (string * json)))
    (request : Request) (call_next : Request -> M R) (w : World) :
  fst (_write_log self level message data w) = Ok tt
  /\ fst (FileLogger_info self message data w) = Ok tt
  /\ log_requests request call_next w
     = call_next request
         (snd (FileLogger_info file_logger
                 (method request +:+ " " +:+ path request)
                 (Some (request_data request)) w)).
Proof.
  split; [apply _write_log_returns|]. split; [apply FileLogger_info_returns|].
  apply log_requests_runs_handler.
Qed.

(** C8, as the code has it. A [GET /health] request that passes through the
    middleware always answers [{"status": "ok", "service": "python"}], the
    service string being the logger's [service_name], and runs [_write_log]
    twice: once for the request line, once for the health check. *)
Theorem health_request_appends_twice (request : Request) (w : World) :
  let line := method request +:+ " " +:+ path request in
  let w1 := snd (_write_log file_logger "info" line (Some (request_data request)) w) in
  let w2 := snd (logger_log 20 "INFO" line w1) in
  let w3 := snd (_write_log file_logger "info" "Health check requested" None w2) in
  let w4 := snd (logger_log 20 "INFO" "Health check requested" w3) in
  log_requests request (fun _ => health) w
  = (Ok (JObj [("status", JStr "ok"); ("service", JStr (service_name file_logger))]), w4)
  /\ io_pos w4 = S (S (io_pos w)).
Proof.
  intros line w1 w2 w3 w4. split.
  - rewrite log_requests_runs_handler, FileLogger_info_world.
    fold line w1 w2. unfold health, bind.
    pose proof (FileLogger_info_returns file_logger "Health check requested" None w2) as Hr.
    pose proof (FileLogger_info_world file_logger "Health check requested" None w2) as Hw.
    fold w3 w4 in Hw.
    destruct (FileLogger_info file_logger "Health check requested" None w2) as [r w'].
    simpl in Hr, Hw. subst r w'. reflexivity.
  - unfold w4, w3, w2, w1.
    now rewrite logger_log_io_pos, _write_log_io_pos, logger_log_io_pos, _write_log_io_pos.
Qed.

(** ** The query path *)

Lemma handler_returns_fetch_failed (e : exn) (w : World) :
  fst ((FileLogger_error file_logger ("Failed to fetch logs: " +:+ exn_str e) None ;;;
        ret fetch_failed) w) = Ok fetch_failed.
Proof.
  unfold bind.
  pose proof (FileLogger_error_returns file_logger
                ("Failed to fetch logs: " +:+ exn_str e) None w) as H.
  destruct (FileLogger_error _ _ _ w) as [r w']. simpl in H. subst r. reflexivity.
Qed.

Lemma get_logs_try_fst (tail : Z) (level since : option string) (w : World) :
  fst (get_logs_try tail level since w)
  = (let? logs := filtered_logs level since w in Ok (JArr (py_slice_from (- tail) logs))).
Proof.
  unfold get_logs_try, filtered_logs, log_file_at.
  destruct (logs_dir_exists w) eqn:Hdir; simpl;
    [|now rewrite py_slice_from_nil].
  unfold bind at 1. simpl.
  destruct (files w !! _) as [content|] eqn:Hf;
    [|simpl; now rewrite py_slice_from_nil].
  unfold bind, open_readlines, lift, ret. simpl. rewrite Hdir, Hf. simpl.
  destruct (io w (io_pos w)); simpl; try reflexivity.
  destruct (parse_lines (readlines content)) as [l0|e0]; simpl; [|reflexivity].
  destruct (apply_level level l0) as [l1|e1]; simpl; [|reflexivity].
  destruct (apply_since since l1) as [l2|e2]; reflexivity.
Qed.

(** The answer of [GET /logs] in terms of the filtered records. *)
Lemma get_logs_fst (tail : Z) (level since : option string) (w : World) :
  fst (get_logs tail level since w)
  = Ok (match filtered_logs level since w with
        | Ok logs => JArr (py_slice_from (- tail) logs)
        | Raise _ => fetch_failed
        end).
Proof.
  unfold get_logs, try_except.
  pose proof (get_logs_try_fst tail level since w) as H.
  destruct (get_logs_try tail level since w) as [[v|e] w']; simpl in H;
    destruct (filtered_logs level since w); simpl in H; try discriminate.
  - now injection H as ->.
  - apply handler_returns_fetch_failed.
Qed.

(** C2. With [tail = N > 0], a query that reaches the tail step with the
    filtered records [kept] answers the last [min N (length kept)] of them, in
    file order, and so never more than [N]. *)
Theorem tail_returns_last_min (N : Z) (level since : option string) (w : World)
    (kept : list json) :
  0 < N ->
  filtered_logs level since w = Ok kept ->
  exists out,
    fst (get_logs N level since w) = Ok (JArr out)
    /\ out = drop (length kept - Z.to_nat N) kept
    /\ Z.of_nat (length out) = Z.min N (Z.of_nat (length kept))
    /\ Z.of_nat (length out) <= N.
Proof.
  intros HN Hkept. exists (drop (length kept - Z.to_nat N) kept).
  rewrite get_logs_fst, Hkept, py_slice_from_tail by assumption.
  repeat split; rewrite length_drop; lia.
Qed.

Lemma apply_since_ignored (since : option string) (logs : list json) :
  since_ignored since -> apply_since since logs = Ok logs.
Proof.
  destruct since as [s|]; simpl; [|reflexivity].
  intros [-> | Hs]; [reflexivity|].
  destruct (decide (s = EmptyString)); [reflexivity|]. now rewrite Hs.
Qed.

Lemma get_logs_try_since_ignored (tail : Z) (level since : option string) (w : World) :
  since_ignored since ->
  get_logs_try tail level since w = get_logs_try tail level None w.
Proof.
  intros Hs. unfold get_logs_try.
  destruct (negb (logs_dir_exists w)); [reflexivity|].
  unfold bind, datetime_now, lift, ret. cbn beta iota.
  destruct (files (tick_clock w) !! _); [|reflexivity].
  destruct (open_readlines _ _) as [[lines|e] w1]; [|reflexivity].
  destruct (parse_lines lines) as [l0|e0]; [|reflexivity].
  destruct (apply_level level l0) as [l1|e1]; [|reflexivity].
  now rewrite (apply_since_ignored since l1 Hs).
Qed.

(** C5. When [fromisoformat] rejects [since] (after its ['Z'] are replaced,
    which is how the code reads it), the query has the same answer and the same
    effects as the query without [since]. *)
Theorem unparseable_since_is_ignored (tail : Z) (level : option string) (s : string)
    (w : World) :
  fromisoformat (str_replace_char "Z" "+00:00" s) = None ->
  get_logs tail level (Some s) w = get_logs tail level None w.
Proof.
  intros Hs. unfold get_logs, try_except.
  rewrite (get_logs_try_since_ignored tail level (Some s) w); [reflexivity|].
  right. exact Hs.
Qed.

Lemma comprehension_if_filter {A} (p : A -> result bool) (q : A -> bool) (xs : list A) :
  (forall x, In x xs -> p x = Ok (q x)) ->
  comprehension_if p xs = Ok (List.filter q xs).
Proof.
  induction xs as [|x xs IH]; intros Hp; simpl; [reflexivity|].
  rewrite (Hp x) by now left.
  rewrite IH by (intros y Hy; apply Hp; now right).
  now destruct (q x).
Qed.

Lemma comprehension_if_raises {A} (p : A -> result bool) (pre post : list A) (bad : A)
    (e : exn) :
  Forall (fun x => exists b, p x = Ok b) pre ->
  p bad = Raise e ->
  comprehension_if p (pre ++ bad :: post) = Raise e.
Proof.
  intros Hpre Hbad. induction Hpre as [|x pre [b Hx] _ IH]; simpl.
  - now rewrite Hbad.
  - now rewrite Hx, IH.
Qed.

Lemma level_is_has_level (wanted : string) (log : json) :
  is_object log = true -> level_is wanted log = Ok (has_level wanted log).
Proof.
  destruct log; try discriminate. intros _. simpl.
  destruct (dict_lookup "level" members) as [[]|]; reflexivity.
Qed.

Lemma apply_level_objects (level : option string) (logs : list json) :
  forallb is_object logs = true ->
  apply_level level logs = Ok (level_kept level logs).
Proof.
  intros Hobj. unfold apply_level, level_kept.
  destruct level as [l|]; [|reflexivity].
  destruct (decide (l = EmptyString)); [reflexivity|].
  apply comprehension_if_filter. intros x Hx. apply level_is_has_level.
  rewrite forallb_forall in Hobj. now apply Hobj.
Qed.

Lemma has_level_iff (wanted : string) (log : json) :
  has_level wanted log = true
  <-> exists members, log = JObj members
                      /\ dict_lookup "level" members = Some (JStr wanted).
Proof.
  split.
  - destruct log; try discriminate. simpl.
    destruct (dict_lookup "level" members) as [[]|] eqn:Hl; try discriminate.
    intros ->%String.eqb_eq. now exists members.
  - intros (members & -> & Hl). simpl. rewrite Hl. apply String.eqb_refl.
Qed.

Lemma filtered_logs_read (level since : option string) (w : World) (content : string) :
  logs_dir_exists w = true ->
  files w !! log_file_at w (clock_pos w) = Some content ->
  io w (io_pos w) = IoOk ->
  filtered_logs level since w
  = (let? parsed := parse_lines (readlines content) in
     let? logs := apply_level level parsed in
     apply_since since logs).
Proof.
  intros Hdir Hf Hio. unfold filtered_logs. now rewrite Hdir, Hf, Hio.
Qed.

Lemma apply_level_non_object (level : string) (logs : list json) :
  level <> EmptyString ->
  forallb is_object logs = false ->
  exists e, apply_level (Some level) logs = Raise e.
Proof.
  intros Hne Hobj. unfold apply_level.
  destruct (decide (level = EmptyString)); [contradiction|].
  induction logs as [|x logs IH]; [discriminate|]. simpl in *.
  destruct (is_object x) eqn:Hx.
  - rewrite (level_is_has_level _ _ Hx). destruct (IH Hobj) as [e ->]. eauto.
  - destruct x; try discriminate; eauto.
Qed.

(** C3, as the code has it. A query with a non-empty [level] reads and parses
    today's partition. When every parsed value is a JSON object, the level
    filter keeps exactly the records whose ["level"] is the string
    [level.lower()]: the filter value is folded to lower case, the stored
    value is compared as it is, and the answer is the tail of what the [since]
    step leaves of those records. When some parsed value is not an object, the
    query fails. For an entry built by [_write_log], whose level is folded at
    write time, the comparison is a match up to case. *)
Theorem level_filter_keeps_lowercased_filter (tail : Z) (level : string)
    (since : option string) (w : World) (content : string) (logs : list json) :
  logs_dir_exists w = true ->
  files w !! log_file_at w (clock_pos w) = Some content ->
  io w (io_pos w) = IoOk ->
  level <> EmptyString ->
  parse_lines (readlines content) = Ok logs ->
  let kept := List.filter (has_level (str_lower level)) logs in
  (forallb is_object logs = true ->
   apply_level (Some level) logs = Ok kept
   /\ (forall log, In log kept
                   <-> In log logs
                       /\ exists members,
                            log = JObj members
                            /\ dict_lookup "level" members = Some (JStr (str_lower level)))
   /\ fst (get_logs tail (Some level) since w)
      = Ok (match apply_since since kept with
            | Ok l => JArr (py_slice_from (- tail) l)
            | Raise _ => fetch_failed
            end))
  /\ (forallb is_object logs = false ->
      fst (get_logs tail (Some level) since w) = Ok fetch_failed)
  /\ (forall self now written message data,
        has_level (str_lower level) (log_entry_of self now written message data) = true
        <-> str_lower written = str_lower level).
Proof.
  intros Hdir Hf Hio Hne Hparse kept.
  assert (filtered_logs (Some level) since w
          = (let? l := apply_level (Some level) logs in apply_since since l)) as Hfl.
  { now rewrite (filtered_logs_read _ _ _ content), Hparse. }
  split; [|split].
  - intros Hobj.
    assert (apply_level (Some level) logs = Ok kept) as Hlevel.
    { rewrite apply_level_objects by assumption. unfold level_kept.
      now destruct (decide (level = EmptyString)). }
    split; [exact Hlevel|]. split.
    + intros log. unfold kept. rewrite filter_In, has_level_iff. reflexivity.
    + rewrite get_logs_fst, Hfl, Hlevel. reflexivity.
  - intros Hobj. destruct (apply_level_non_object level logs Hne Hobj) as [e He].
    now rewrite get_logs_fst, Hfl, He.
  - intros self now written message data. simpl. apply String.eqb_eq.
Qed.

Lemma apply_level_tolerated (level : option string) (logs : list json) :
  level_tolerates level logs ->
  apply_level level logs = Ok (level_kept level logs).
Proof.
  destruct level as [l|]; [|reflexivity]. intros [-> | Hobj].
  - reflexivity.
  - now apply apply_level_objects.
Qed.

Lemma not_before_safe (since_dt : datetime) (log : json) :
  since_safe since_dt log = true ->
  (has_timestamp log = true
   /\ not_before since_dt log = Ok (at_or_after since_dt log))
  \/ (has_timestamp log = false /\ not_before since_dt log = Raise ValueError).
Proof.
  unfold since_safe, has_timestamp, at_or_after, timestamp_of, not_before, subscript.
  destruct log; try discriminate.
  destruct (dict_lookup "timestamp" members) as [[]|]; try discriminate. simpl.
  destruct (fromisoformat _) as [t|]; [|now right].
  intros Haw%Bool.eqb_prop. left. split; [reflexivity|]. simpl.
  unfold datetime_ge, is_aware in *.
  destruct (utcoffset t), (utcoffset since_dt); try discriminate; reflexivity.
Qed.

Lemma comprehension_if_safe (since_dt : datetime) (survivors : list json) :
  forallb (since_safe since_dt) survivors = true ->
  comprehension_if (not_before since_dt) survivors
  = if forallb has_timestamp survivors
    then Ok (List.filter (at_or_after since_dt) survivors)
    else Raise ValueError.
Proof.
  induction survivors as [|x rest IH]; [reflexivity|]. simpl.
  intros [Hx Hrest]%andb_prop.
  destruct (not_before_safe since_dt x Hx) as [[-> ->] | [-> ->]]; [|reflexivity].
  rewrite (IH Hrest). simpl. now destruct (forallb has_timestamp rest).
Qed.

Lemma apply_since_tolerated (since : option string) (survivors : list json) :
  since_tolerates since survivors ->
  apply_since since survivors = Ok (since_kept since survivors).
Proof.
  unfold since_tolerates, apply_since, since_kept.
  destruct since as [s|]; [|reflexivity]. intros [-> | Hs]; [reflexivity|].
  destruct (decide (s = EmptyString)); [reflexivity|]. simpl.
  destruct (fromisoformat _) as [since_dt|]; [|reflexivity]. simpl.
  rewrite (comprehension_if_safe _ _ Hs).
  now destruct (forallb has_timestamp survivors).
Qed.

(** C4, as the code has it. The query reads and parses today's partition.
    JSON objects of whatever shape are kept by the parse loop and do not make
    the query fail, for every [tail], every [level] (with a level filter in
    use every parsed value has to be an object) and every [since] that is
    absent, empty or unparseable, and also every [since] that parses, as long
    as each record the level filter keeps carries a string timestamp that
    either does not parse (the [since] filter is then dropped as a whole) or
    parses with the timezone awareness of [since]. The answer is the tail of
    what the two filters leave. *)
Theorem objects_do_not_fail_the_query (tail : Z) (level since : option string)
    (w : World) (content : string) (logs : list json) :
  logs_dir_exists w = true ->
  files w !! log_file_at w (clock_pos w) = Some content ->
  io w (io_pos w) = IoOk ->
  parse_lines (readlines content) = Ok logs ->
  level_tolerates level logs ->
  since_tolerates since (level_kept level logs) ->
  fst (get_logs tail level since w)
  = Ok (JArr (py_slice_from (- tail) (since_kept since (level_kept level logs)))).
Proof.
  intros Hdir Hf Hio Hparse Hlevel Hsince.
  rewrite get_logs_fst, (filtered_logs_read _ _ _ content) by assumption.
  rewrite Hparse. simpl rbind.
  rewrite (apply_level_tolerated _ _ Hlevel). simpl rbind.
  now rewrite (apply_since_tolerated _ _ Hsince).
Qed.

(** C10, as the code has it. [since] parses to [since_dt]; among the records
    the level filter keeps, [bad] is a dict whose ["timestamp"] is a string
    that [fromisoformat] rejects, and every record before it can be compared
    with [since_dt]. Then the [since] filter is dropped as a whole: the answer
    is the tail of all the records the level filter keeps, the same as without
    [since]. *)
Theorem bad_timestamp_drops_since (tail : Z) (level : option string) (s : string)
    (w : World) (content : string) (since_dt : datetime)
    (pre post : list json) (members : list (string * json)) (ts : string) :
  logs_dir_exists w = true ->
  files w !! log_file_at w (clock_pos w) = Some content ->
  io w (io_pos w) = IoOk ->
  s <> EmptyString ->
  fromisoformat (str_replace_char "Z" "+00:00" s) = Some since_dt ->
  (let? parsed := parse_lines (readlines content) in apply_level level parsed)
  = Ok (pre ++ JObj members :: post) ->
  Forall (fun log => exists b, not_before since_dt log = Ok b) pre ->
  dict_lookup "timestamp" members = Some (JStr ts) ->
  fromisoformat (str_replace_char "Z" "+00:00" ts) = None ->
  fst (get_logs tail level (Some s) w)
  = Ok (JArr (py_slice_from (- tail) (pre ++ JObj members :: post)))
  /\ fst (get_logs tail level (Some s) w) = fst (get_logs tail level None w).
Proof.
  intros Hdir Hf Hio Hne Hs Hlevel Hpre Hts Hbad.
  assert (apply_since (Some s) (pre ++ JObj members :: post)
          = Ok (pre ++ JObj members :: post)) as Hsince.
  { unfold apply_since. destruct (decide (s = EmptyString)); [contradiction|].
    simpl. rewrite Hs. simpl.
    rewrite (comprehension_if_raises _ pre post (JObj members) ValueError Hpre);
      [reflexivity|].
    unfold not_before. simpl. rewrite Hts. simpl. now rewrite Hbad. }
  rewrite !get_logs_fst, !(filtered_logs_read _ _ _ content) by assumption.
  destruct (parse_lines (readlines content)) as [parsed|]; [|discriminate].
  cbn [rbind] in Hlevel |- *.
  rewrite Hlevel. cbn [rbind]. rewrite Hsince. split; reflexivity.
Qed.

Lemma parse_lines_reads (lines : list string) (outcomes : list (option json)) :
  Forall2 line_reads lines outcomes ->
  parse_lines lines = Ok (kept_values outcomes).
Proof.
  induction 1 as [|line [v|] lines outcomes Hline _ IH]; [reflexivity| |]; simpl.
  - destruct Hline as [Hne Hload].
    destruct (decide (str_strip line = EmptyString)); [contradiction|].
    now rewrite Hload, IH.
  - destruct (decide (str_strip line = EmptyString)); [exact IH|].
    destruct Hline as [Hblank | Hload]; [contradiction|].
    now rewrite Hload.
Qed.

Lemma kept_values_app (a b : list (option json)) :
  kept_values (a ++ b) = kept_values a ++ kept_values b.
Proof.
  induction a as [|[v|] a IH]; simpl; [reflexivity | now rewrite IH | exact IH].
Qed.

Lemma filtered_logs_same_file (level since : option string) (w : World)
    (f : gmap string string) :
  f !! log_file_at w (clock_pos w) = files w !! log_file_at w (clock_pos w) ->
  filtered_logs level since (set_files f w) = filtered_logs level since w.
Proof.
  intros Hf. unfold filtered_logs, log_file_at in *.
  cbn [set_files logs_dir_exists files io io_pos clock clock_pos].
  now rewrite Hf.
Qed.

(** C7, as the code has it. [bad] is a line of today's partition on which
    [json.loads] raises [JSONDecodeError]; each line before and after it is
    read as [line_reads] says: appended when it parses, skipped when it is
    blank or also raises [JSONDecodeError]. Then the line does not make the
    query fail and is not in the answer: without filters the answer is the
    tail of the values of the well-formed lines before the line followed by
    those after it, in file order; with filters it is what the filters and the
    tail make of those values; and it is the answer given on any partition
    made of the other lines alone, so the line is not counted toward [tail]. *)
Theorem malformed_line_is_skipped (tail : Z) (level since : option string)
    (w : World) (content : string) (before after : list string) (bad : string)
    (read_before read_after : list (option json)) :
  logs_dir_exists w = true ->
  io w (io_pos w) = IoOk ->
  files w !! log_file_at w (clock_pos w) = Some content ->
  readlines content = before ++ bad :: after ->
  json_loads (str_strip bad) = Raise JSONDecodeError ->
  Forall2 line_reads before read_before ->
  Forall2 line_reads after read_after ->
  let others := kept_values read_before ++ kept_values read_after in
  fst (get_logs tail None None w) = Ok (JArr (py_slice_from (- tail) others))
  /\ fst (get_logs tail level since w)
     = Ok (match (let? logs := apply_level level others in apply_since since logs) with
           | Ok kept => JArr (py_slice_from (- tail) kept)
           | Raise _ => fetch_failed
           end)
  /\ (forall content' : string,
        readlines content' = before ++ after ->
        fst (get_logs tail level since
               (set_files (<[log_file_at w (clock_pos w) := content']> (files w)) w))
        = fst (get_logs tail level since w)).
Proof.
  intros Hdir Hio Hf Hlines Hbad Hbefore Hafter others.
  assert (parse_lines (readlines content) = Ok others) as Hparse.
  { rewrite Hlines.
    rewrite (parse_lines_reads _ (read_before ++ None :: read_after)).
    - now rewrite kept_values_app.
    - apply Forall2_app; [assumption|]. constructor; [now right | assumption]. }
  assert (forall lv sn, filtered_logs lv sn w
                        = (let? logs := apply_level lv others in apply_since sn logs))
    as Hfiltered.
  { intros lv sn. now rewrite (filtered_logs_read _ _ _ content), Hparse. }
  split; [|split].
  - now rewrite get_logs_fst, Hfiltered.
  - now rewrite get_logs_fst, Hfiltered.
  - intros content' Hlines'. rewrite !get_logs_fst, Hfiltered.
    rewrite (filtered_logs_read _ _ _ content'); try assumption.
    + rewrite Hlines', (parse_lines_reads _ (read_before ++ read_after)).
      * now rewrite kept_values_app.
      * now apply Forall2_app.
    + apply lookup_insert_eq.
Qed.

(** C9, as the code has it. An append goes to the file named by the local
    date of the clock, [YYYY-MM-DD.log], and touches no other file. A query
    reads the file of that name for the local date of its own clock reading:
    when the file is there, the answer is computed from its text (its lines
    parsed, filtered and cut to the tail); when it is not there, the answer is
    the empty list; and no other file of the directory has any influence. *)
Theorem partition_is_named_by_local_date (self : FileLogger) (level message : string)
    (data : option (list (string * json))) (w : World) :
  (logs_dir_exists w = true ->
   io w (io_pos w) = IoOk ->
   let name := strftime_Ymd (local_now (clock w (S (clock_pos w)))) +:+ ".log" in
   files (snd (_write_log self level message data w))
   = <[name := file_text name w
               +:+ json_dumps (log_entry_of self (local_now (clock w (clock_pos w)))
                                            level message data)
               +:+ newline]> (files w))
  /\ (forall (tail : Z) (lv since : option string) (content : string),
        let name := strftime_Ymd (local_now (clock w (clock_pos w))) +:+ ".log" in
        logs_dir_exists w = true ->
        io w (io_pos w) = IoOk ->
        files w !! name = Some content ->
        fst (get_logs tail lv since w)
        = Ok (match (let? parsed := parse_lines (readlines content) in
                     let? kept := apply_level lv parsed in
                     apply_since since kept) with
              | Ok kept => JArr (py_slice_from (- tail) kept)
              | Raise _ => fetch_failed
              end))
  /\ (forall (tail : Z) (lv since : option string),
        let name := strftime_Ymd (local_now (clock w (clock_pos w))) +:+ ".log" in
        files w !! name = None ->
        fst (get_logs tail lv since w) = Ok (JArr []))
  /\ (forall (tail : Z) (lv since : option string) (f : gmap string string),
        let name := strftime_Ymd (local_now (clock w (clock_pos w))) +:+ ".log" in
        f !! name = files w !! name ->
        fst (get_logs tail lv since (set_files f w)) = fst (get_logs tail lv since w)).
Proof.
  split; [|split; [|split]].
  - intros Hdir Hio name. now rewrite _write_log_written.
  - intros tail lv since content name Hdir Hio Hf.
    now rewrite get_logs_fst, (filtered_logs_read _ _ _ content).
  - intros tail lv since name Hf. subst name.
    rewrite get_logs_fst. unfold filtered_logs, log_file_at. rewrite Hf.
    destruct (negb (logs_dir_exists w)); now rewrite py_slice_from_nil.
  - intros tail lv since f name Hf.
    now rewrite !get_logs_fst, filtered_logs_same_file.
Qed.

(** ** Appending, then querying *)

Lemma parse_lines_stored (entries : list json) :
  Forall storable entries ->
  parse_lines (readlines (lines_of entries)) = Ok entries.
Proof.
  induction 1 as [|entry entries (Hbreak & Hne & Hload) _ IH]; [reflexivity|].
  simpl lines_of. unfold readlines. rewrite append_assoc.
  rewrite readlines_from_line by assumption. fold (readlines (lines_of entries)).
  change (EmptyString +:+ json_dumps entry +:+ newline)
    with (json_dumps entry +:+ newline).
  simpl. destruct (decide (_ = EmptyString)); [contradiction|].
  now rewrite Hload, IH.
Qed.

Lemma write_logs_run (self : FileLogger) (name : string)
    (calls : list (string * string * option (list (string * json)))) :
  forall w : World,
    logs_dir_exists w = true ->
    (forall i, (clock_pos w <= i)%nat -> log_file_at w i = name) ->
    (forall i, (io_pos w <= i)%nat -> io w i = IoOk) ->
    let w' := snd (write_logs self calls w) in
    logs_dir_exists w' = true
    /\ clock w' = clock w
    /\ io w' = io w
    /\ (clock_pos w <= clock_pos w')%nat
    /\ (io_pos w <= io_pos w')%nat
    /\ files w' !! name
       = match calls with
         | [] => files w !! name
         | _ => Some (file_text name w
                      +:+ lines_of (entries_of self (clock w) (clock_pos w) calls))
         end.
Proof.
  induction calls as [|[[level message] data] rest IH]; intros w Hdir Hday Hio.
  - simpl. repeat split; auto.
  - cbn zeta. simpl write_logs. unfold bind.
    rewrite _write_log_written by (auto using Hio).
    set (w1 := appended _ _ w).
    assert (log_file_at w (S (clock_pos w)) = name) as Hname by (apply Hday; lia).
    specialize (IH w1).
    destruct IH as (Hd & Hc & Hi & Hcp & Hip & Hfile).
    { exact Hdir. }
    { intros i Hi. unfold log_file_at. change (clock w1) with (clock w).
      apply Hday. simpl in Hi. lia. }
    { intros i Hi. change (io w1) with (io w). apply Hio. simpl in Hi. lia. }
    repeat split; auto.
    + simpl in Hcp. lia.
    + simpl in Hip. lia.
    + rewrite Hfile.
      assert (file_text name w1
              = file_text name w
                +:+ json_dumps (log_entry_of self (local_now (clock w (clock_pos w)))
                                             level message data) +:+ newline) as Htext.
      { unfold file_text at 1, w1, appended. simpl. rewrite Hname.
        now rewrite lookup_insert_eq. }
      assert (files w1 !! name = Some (file_text name w1)) as Hsome.
      { unfold file_text, w1, appended. simpl. rewrite Hname.
        now rewrite lookup_insert_eq. }
      change (clock w1) with (clock w). change (clock_pos w1) with (S (S (clock_pos w))).
      simpl entries_of. simpl lines_of.
      destruct rest as [|c rest].
      * rewrite Hsome, Htext. cbn [entries_of lines_of]. now rewrite append_empty_r.
      * rewrite Htext. now rewrite append_assoc.
Qed.

(** C1. The log directory exists, today's partition is not there yet, the
    clock stays on one day and no I/O fails. After any run of [_write_log]
    calls whose entries are storable, a query with no [level], no [since] and
    [tail] at least the number of calls answers exactly the entries built by
    those calls, in the order of the calls. *)
Theorem appended_records_are_returned_in_order (self : FileLogger)
    (calls : list (string * string * option (list (string * json))))
    (w : World) (tail : Z) (today : string) :
  logs_dir_exists w = true ->
  (forall i, (clock_pos w <= i)%nat -> strftime_Ymd (local_now (clock w i)) = today) ->
  files w !! (today +:+ ".log") = None ->
  (forall i, (io_pos w <= i)%nat -> io w i = IoOk) ->
  Forall storable (entries_of self (clock w) (clock_pos w) calls) ->
  Z.of_nat (length calls) <= tail ->
  fst (get_logs tail None None (snd (write_logs self calls w)))
  = Ok (JArr (entries_of self (clock w) (clock_pos w) calls)).
Proof.
  intros Hdir Hday Hnew Hio Hst Htail.
  assert (forall i, (clock_pos w <= i)%nat -> log_file_at w i = today +:+ ".log") as Hday'.
  { intros i Hi. unfold log_file_at. now rewrite Hday. }
  destruct (write_logs_run self (today +:+ ".log") calls w Hdir Hday' Hio)
    as (Hd & Hc & Hi & Hcp & Hip & Hfile).
  set (w' := snd (write_logs self calls w)) in *.
  assert (length (entries_of self (clock w) (clock_pos w) calls) = length calls) as Hlen.
  { clear. generalize (clock_pos w). induction calls as [|[[l m] d] rest IH];
      intros n; simpl; [reflexivity | now rewrite IH]. }
  rewrite get_logs_fst. f_equal. unfold filtered_logs. rewrite Hd. simpl.
  assert (log_file_at w' (clock_pos w') = today +:+ ".log") as ->.
  { unfold log_file_at. rewrite Hc. now rewrite Hday. }
  rewrite Hfile. destruct calls as [|c rest] eqn:Hcalls.
  - rewrite Hnew. simpl. now rewrite py_slice_from_nil.
  - rewrite <- Hcalls in *. rewrite Hi, Hio by assumption.
    unfold file_text. rewrite Hnew. simpl default.
    change (EmptyString +:+ ?x) with x.
    rewrite parse_lines_stored by assumption. simpl.
    rewrite py_slice_from_all; [reflexivity | lia].
Qed.

End Properties.

(** * Further properties of the query and append paths *)

Section MoreProperties.
Context {RT : PyRuntime}.

Ltac step_write_log :=
  unfold _write_log, try_except, bind, _get_log_file, datetime_now, open_append,
    print, ret; simpl.

Lemma get_logs_try_snd (tail : Z) (level since : option string) (w : World) :
  snd (get_logs_try tail level since w) = after_try w.
Proof.
  unfold get_logs_try, after_try, log_file_at.
  destruct (logs_dir_exists w) eqn:Hdir; simpl; [|reflexivity].
  unfold bind at 1. simpl.
  destruct (files w !! _) as [content|] eqn:Hf; [|reflexivity].
  unfold bind, open_readlines, lift, ret. simpl. rewrite Hdir, Hf. simpl.
  destruct (io w (io_pos w)); simpl; try reflexivity.
  destruct (parse_lines (readlines content)) as [l0|e0]; simpl; [|reflexivity].
  destruct (apply_level level l0) as [l1|e1]; simpl; [|reflexivity].
  destruct (apply_since since l1) as [l2|e2]; reflexivity.
Qed.

(** The whole outcome of [GET /logs]: the answer and the world it leaves. *)
Lemma get_logs_run (tail : Z) (level since : option string) (w : World) :
  get_logs tail level since w
  = match filtered_logs level since w with
    | Ok kept => (Ok (JArr (py_slice_from (- tail) kept)), after_try w)
    | Raise e =>
        (Ok fetch_failed,
         snd (FileLogger_error file_logger ("Failed to fetch logs: " +:+ exn_str e)
                               None (after_try w)))
    end.
Proof.
  unfold get_logs, try_except.
  pose proof (get_logs_try_fst tail level since w) as Hfst.
  pose proof (get_logs_try_snd tail level since w) as Hsnd.
  destruct (get_logs_try tail level since w) as [[v|e] w']; simpl in Hfst, Hsnd;
    subst w'; destruct (filtered_logs level since w) as [kept|e'];
    simpl in Hfst; try discriminate.
  - now injection Hfst as ->.
  - injection Hfst as ->. unfold bind.
    pose proof (FileLogger_error_returns file_logger
                  ("Failed to fetch logs: " +:+ exn_str e') None (after_try w)) as H.
    destruct (FileLogger_error _ _ _ (after_try w)) as [r w']. simpl in H. subst r.
    reflexivity.
Qed.

Lemma get_logs_try_ext (tail : Z) (lv1 lv2 s1 s2 : option string) (w : World) :
  (forall logs, apply_level lv1 logs = apply_level lv2 logs) ->
  (forall logs, apply_since s1 logs = apply_since s2 logs) ->
  get_logs_try tail lv1 s1 w = get_logs_try tail lv2 s2 w.
Proof.
  intros Hlv Hs. unfold get_logs_try.
  destruct (negb (logs_dir_exists w)); [reflexivity|].
  unfold bind, datetime_now, lift, ret. cbn beta iota.
  destruct (files (tick_clock w) !! _); [|reflexivity].
  destruct (open_readlines _ _) as [[lines|e] w1]; [|reflexivity].
  destruct (parse_lines lines) as [l0|e0]; [|reflexivity].
  rewrite Hlv.
  destruct (apply_level lv2 l0) as [l1|e1]; [|reflexivity].
  now rewrite Hs.
Qed.

Lemma get_logs_ext (tail : Z) (lv1 lv2 s1 s2 : option string) (w : World) :
  (forall logs, apply_level lv1 logs = apply_level lv2 logs) ->
  (forall logs, apply_since s1 logs = apply_since s2 logs) ->
  get_logs tail lv1 s1 w = get_logs tail lv2 s2 w.
Proof.
  intros Hlv Hs. unfold get_logs, try_except.
  now rewrite (get_logs_try_ext tail lv1 lv2 s1 s2 w Hlv Hs).
Qed.

(** X1. [GET /logs] never raises: for every world and every [tail], [level]
    and [since] it answers either a JSON list or the error body. *)
Theorem get_logs_never_raises (tail : Z) (level since : option string) (w : World) :
  fst (get_logs tail level since w) = Ok fetch_failed
  \/ exists out, fst (get_logs tail level since w) = Ok (JArr out).
Proof.
  rewrite get_logs_fst. destruct (filtered_logs level since w); eauto.
Qed.

(** X2. Without a log directory, or without a partition for today, the query
    answers the empty list whatever its parameters; it opens no file, writes
    nothing and prints nothing (without a directory it does not even read the
    clock). *)
Theorem get_logs_without_partition (tail : Z) (level since : option string) (w : World) :
  logs_dir_exists w = false \/ files w !! log_file_at w (clock_pos w) = None ->
  get_logs tail level since w
  = (Ok (JArr []), if logs_dir_exists w then tick_clock w else w).
Proof.
  intros H. rewrite get_logs_run. unfold filtered_logs, after_try.
  destruct (logs_dir_exists w); simpl.
  - destruct H as [H|H]; [discriminate|]. rewrite H. now rewrite py_slice_from_nil.
  - now rewrite py_slice_from_nil.
Qed.

Lemma py_slice_from_nonneg {A} (start : Z) (l : list A) :
  0 <= start -> py_slice_from start l = drop (Z.to_nat start) l.
Proof.
  intros Hs. unfold py_slice_from.
  destruct (Z.ltb_spec start 0); [lia|].
  destruct (Z.le_gt_cases start (Z.of_nat (length l))).
  - now rewrite Z.min_l.
  - rewrite Z.min_r by lia. rewrite Nat2Z.id, drop_all.
    symmetry. apply drop_ge. lia.
Qed.

(** X3. [tail] is not checked: with [tail = 0] the query answers all the
    filtered records ([logs[-0:]] is the whole list), and with a negative
    [tail] it answers them without the first [-tail]. *)
Theorem nonpositive_tail_drops_from_the_front (tail : Z) (level since : option string)
    (w : World) (kept : list json) :
  tail <= 0 ->
  filtered_logs level since w = Ok kept ->
  fst (get_logs tail level since w) = Ok (JArr (drop (Z.to_nat (- tail)) kept))
  /\ (tail = 0 -> fst (get_logs tail level since w) = Ok (JArr kept)).
Proof.
  intros Ht Hk. rewrite get_logs_fst, Hk, py_slice_from_nonneg by lia.
  split; [reflexivity|]. intros ->. reflexivity.
Qed.

(** X4. A query that fails answers the error body and logs its own failure:
    it calls [file_logger.error] once with ["Failed to fetch logs: "] and the
    text of the exception. When the directory is there and that append
    succeeds, the partition of the day gains one line, an entry of level
    [error], and the console gets the same message. *)
Theorem failed_query_logs_its_failure (tail : Z) (level since : option string)
    (w : World) (e : exn) :
  filtered_logs level since w = Raise e ->
  let message := "Failed to fetch logs: " +:+ exn_str e in
  let w1 := tick_io (tick_clock w) in
  get_logs tail level since w
  = (Ok fetch_failed, snd (FileLogger_error file_logger message None w1))
  /\ (io w (S (io_pos w)) = IoOk ->
      let name := log_file_at w (S (S (clock_pos w))) in
      let w' := snd (get_logs tail level since w) in
      files w'
      = <[name := file_text name w
                  +:+ json_dumps (log_entry_of file_logger
                                    (local_now (clock w (S (clock_pos w))))
                                    "error" message None)
                  +:+ newline]> (files w)
      /\ stderr w' = stderr w ++ [("ERROR", message)]).
Proof.
  intros Hf message w1.
  assert (logs_dir_exists w = true
          /\ exists c, files w !! log_file_at w (clock_pos w) = Some c) as [Hdir [c Hc]].
  { unfold filtered_logs in Hf. destruct (logs_dir_exists w); [|discriminate].
    split; [reflexivity|].
    destruct (files w !! _) as [c|]; [eauto | discriminate]. }
  assert (after_try w = w1) as Hafter.
  { unfold after_try. now rewrite Hdir, Hc. }
  assert (get_logs tail level since w
          = (Ok fetch_failed, snd (FileLogger_error file_logger message None w1))) as Hrun.
  { now rewrite get_logs_run, Hf, Hafter. }
  split; [exact Hrun|].
  intros Hio name w'. unfold w'. rewrite Hrun. simpl snd.
  unfold FileLogger_error, bind.
  rewrite (_write_log_written file_logger "error" message None w1)
    by (simpl; assumption).
  simpl. split; reflexivity.
Qed.

(** X5. A query that does not fail is read-only: it leaves every file, the
    directory and both console streams as they were. *)
Theorem successful_query_is_read_only (tail : Z) (level since : option string)
    (w : World) (kept : list json) :
  filtered_logs level since w = Ok kept ->
  let w' := snd (get_logs tail level since w) in
  files w' = files w
  /\ logs_dir_exists w' = logs_dir_exists w
  /\ stdout w' = stdout w
  /\ stderr w' = stderr w.
Proof.
  intros Hk. rewrite get_logs_run, Hk. simpl. unfold after_try.
  destruct (logs_dir_exists w) eqn:Hdir; [|now rewrite Hdir].
  destruct (files w !! _); simpl; now rewrite Hdir.
Qed.

(** X6. The level filter calls [log.get]: one line that is JSON but not an
    object (a number, a string, a list, [null]) makes every query with a
    non-empty [level] fail, whatever [tail] and [since] are, while the query
    without filters returns that value with the rest. *)
Theorem level_filter_fails_on_non_object (tail : Z) (level : string)
    (since : option string) (w : World) (content : string)
    (pre post : list json) (v : json) :
  logs_dir_exists w = true ->
  files w !! log_file_at w (clock_pos w) = Some content ->
  io w (io_pos w) = IoOk ->
  level <> EmptyString ->
  parse_lines (readlines content) = Ok (pre ++ v :: post) ->
  forallb is_object pre = true ->
  is_object v = false ->
  fst (get_logs tail (Some level) since w) = Ok fetch_failed
  /\ fst (get_logs tail None None w)
     = Ok (JArr (py_slice_from (- tail) (pre ++ v :: post))).
Proof.
  intros Hdir Hf Hio Hne Hparse Hpre Hv.
  rewrite !get_logs_fst, !(filtered_logs_read _ _ _ content) by assumption.
  rewrite Hparse. cbn [rbind]. split; [|reflexivity].
  unfold apply_level. destruct (decide (level = EmptyString)); [contradiction|].
  rewrite (comprehension_if_raises _ pre post v (AttributeError v "get")).
  - reflexivity.
  - rewrite forallb_forall in Hpre. apply Forall_forall. intros x Hx.
    exists (has_level (str_lower level) x). apply level_is_has_level.
    apply Hpre. now apply list_elem_of_In.
  - destruct v; try reflexivity. discriminate.
Qed.

(** X7. An empty [level] or [since] is the same as none: answer and effects
    are those of the query without that parameter. *)
Theorem empty_filters_are_absent (tail : Z) (level since : option string) (w : World) :
  get_logs tail (Some EmptyString) since w = get_logs tail None since w
  /\ get_logs tail level (Some EmptyString) w = get_logs tail level None w.
Proof.
  split; apply get_logs_ext; intros logs; reflexivity.
Qed.

(** X8. Only the lower-cased filter matters: two non-empty [level] values
    that [lower()] maps to the same string give the same answer and the same
    effects. *)
Theorem level_filter_ignores_case_of_filter (tail : Z) (l1 l2 : string)
    (since : option string) (w : World) :
  l1 <> EmptyString ->
  l2 <> EmptyString ->
  str_lower l1 = str_lower l2 ->
  get_logs tail (Some l1) since w = get_logs tail (Some l2) since w.
Proof.
  intros H1 H2 Hlow. apply get_logs_ext; intros logs; [|reflexivity].
  unfold apply_level.
  destruct (decide (l1 = EmptyString)); [contradiction|].
  destruct (decide (l2 = EmptyString)); [contradiction|].
  now rewrite Hlow.
Qed.

(** X9. [since] is read after every ['Z'] in it is replaced by ['+00:00']:
    two non-empty values that agree after the replacement give the same answer
    and the same effects. *)
Theorem since_Z_reads_as_offset (tail : Z) (level : option string) (s1 s2 : string)
    (w : World) :
  s1 <> EmptyString ->
  s2 <> EmptyString ->
  str_replace_char "Z" "+00:00" s1 = str_replace_char "Z" "+00:00" s2 ->
  get_logs tail level (Some s1) w = get_logs tail level (Some s2) w.
Proof.
  intros H1 H2 Hz. apply get_logs_ext; intros logs; [reflexivity|].
  unfold apply_since, parse_iso.
  destruct (decide (s1 = EmptyString)); [contradiction|].
  destruct (decide (s2 = EmptyString)); [contradiction|].
  now rewrite Hz.
Qed.

Lemma not_before_timestamp (since_dt t : datetime) (log : json) :
  timestamp_of log = Some t -> not_before since_dt log = datetime_ge t since_dt.
Proof.
  unfold timestamp_of, not_before, subscript.
  destruct log; try discriminate.
  destruct (dict_lookup "timestamp" members) as [[]|]; try discriminate.
  intros Ht. simpl. now rewrite Ht.
Qed.

Lemma datetime_ge_same_awareness (a b : datetime) :
  is_aware a = is_aware b -> exists keep, datetime_ge a b = Ok keep.
Proof.
  unfold is_aware, datetime_ge.
  destruct (utcoffset a), (utcoffset b); try discriminate; eauto.
Qed.

Lemma datetime_ge_mixed_awareness (a b : datetime) :
  is_aware a <> is_aware b -> datetime_ge a b = Raise TypeError_compare.
Proof.
  unfold is_aware, datetime_ge.
  destruct (utcoffset a), (utcoffset b); try reflexivity; contradiction.
Qed.

(** X10. When [since] parses and every record the level filter keeps carries
    a timestamp that parses with the same timezone awareness as [since], the
    query answers the tail of the records that are not before [since], in file
    order. The bound is inclusive: among naive values a record is kept exactly
    when its wall-clock time is at or after that of [since]. *)
Theorem since_keeps_records_at_or_after (tail : Z) (level : option string) (s : string)
    (w : World) (content : string) (since_dt : datetime) (survivors : list json) :
  logs_dir_exists w = true ->
  files w !! log_file_at w (clock_pos w) = Some content ->
  io w (io_pos w) = IoOk ->
  s <> EmptyString ->
  fromisoformat (str_replace_char "Z" "+00:00" s) = Some since_dt ->
  (let? parsed := parse_lines (readlines content) in apply_level level parsed)
  = Ok survivors ->
  Forall (fun log => exists t, timestamp_of log = Some t
                               /\ is_aware t = is_aware since_dt) survivors ->
  fst (get_logs tail level (Some s) w)
  = Ok (JArr (py_slice_from (- tail) (List.filter (at_or_after since_dt) survivors)))
  /\ (forall log t,
        timestamp_of log = Some t ->
        is_aware t = false ->
        is_aware since_dt = false ->
        (at_or_after since_dt log = true <-> wall_micros since_dt <= wall_micros t)).
Proof.
  intros Hdir Hf Hio Hne Hs Hlevel Hall. split.
  - rewrite get_logs_fst, (filtered_logs_read _ _ _ content) by assumption.
    destruct (parse_lines (readlines content)) as [parsed|]; [|discriminate].
    cbn [rbind] in Hlevel |- *.
    rewrite Hlevel. unfold rbind, apply_since.
    destruct (decide (s = EmptyString)); [contradiction|].
    simpl. rewrite Hs. simpl.
    rewrite (comprehension_if_filter _ (at_or_after since_dt)); [reflexivity|].
    intros log Hin. rewrite Forall_forall in Hall.
    destruct (Hall log) as (t & Ht & Haw); [now apply list_elem_of_In|].
    rewrite (not_before_timestamp _ t) by assumption.
    unfold at_or_after. rewrite Ht.
    destruct (datetime_ge_same_awareness t since_dt Haw) as [keep ->]. reflexivity.
  - intros log t Ht Hn1 Hn2. unfold at_or_after. rewrite Ht.
    unfold is_aware in Hn1, Hn2. unfold datetime_ge.
    destruct (utcoffset t); [discriminate|].
    destruct (utcoffset since_dt); [discriminate|].
    apply Z.leb_le.
Qed.

(** X11. Naive and aware timestamps do not compare. When [since] parses and
    the first record that cannot be compared differs from it in timezone
    awareness (a naive timestamp, as [_write_log] writes them, against a
    [since] that ends in ['Z'] or carries an offset, or the reverse), the
    [TypeError] is not caught by the inner [except]: the query fails. *)
Theorem mixed_awareness_fails_the_query (tail : Z) (level : option string) (s : string)
    (w : World) (content : string) (since_dt t : datetime)
    (pre post : list json) (log : json) :
  logs_dir_exists w = true ->
  files w !! log_file_at w (clock_pos w) = Some content ->
  io w (io_pos w) = IoOk ->
  s <> EmptyString ->
  fromisoformat (str_replace_char "Z" "+00:00" s) = Some since_dt ->
  (let? parsed := parse_lines (readlines content) in apply_level level parsed)
  = Ok (pre ++ log :: post) ->
  Forall (fun x => exists keep, not_before since_dt x = Ok keep) pre ->
  timestamp_of log = Some t ->
  is_aware t <> is_aware since_dt ->
  fst (get_logs tail level (Some s) w) = Ok fetch_failed.
Proof.
  intros Hdir Hf Hio Hne Hs Hlevel Hpre Ht Hmixed.
  rewrite get_logs_fst, (filtered_logs_read _ _ _ content) by assumption.
  destruct (parse_lines (readlines content)) as [parsed|]; [|discriminate].
  cbn [rbind] in Hlevel |- *.
  rewrite Hlevel. unfold rbind, apply_since.
  destruct (decide (s = EmptyString)); [contradiction|].
  simpl. rewrite Hs. simpl.
  rewrite (comprehension_if_raises _ pre post log TypeError_compare Hpre);
    [reflexivity|].
  rewrite (not_before_timestamp _ t) by assumption.
  now apply datetime_ge_mixed_awareness.
Qed.

(** X12. A larger [tail] only adds older records: for [0 < N <= N'] the
    answer for [N] is the end of the answer for [N']. *)
Theorem larger_tail_extends_answer (N N' : Z) (level since : option string)
    (w : World) (kept : list json) :
  0 < N -> N <= N' ->
  filtered_logs level since w = Ok kept ->
  exists short long,
    fst (get_logs N level since w) = Ok (JArr short)
    /\ fst (get_logs N' level since w) = Ok (JArr long)
    /\ short `suffix_of` long.
Proof.
  intros HN HN' Hk.
  exists (drop (length kept - Z.to_nat N) kept),
         (drop (length kept - Z.to_nat N') kept).
  rewrite !get_logs_fst, Hk, !py_slice_from_tail by lia.
  split; [reflexivity|]. split; [reflexivity|].
  replace (length kept - Z.to_nat N)%nat
    with ((length kept - Z.to_nat N')
          + ((length kept - Z.to_nat N) - (length kept - Z.to_nat N')))%nat by lia.
  rewrite <- drop_drop. apply suffix_drop.
Qed.

Lemma comprehension_if_sublist {A} (p : A -> result bool) (xs ys : list A) :
  comprehension_if p xs = Ok ys -> ys `sublist_of` xs.
Proof.
  revert ys. induction xs as [|x xs IH]; intros ys; simpl.
  - intros [= <-]. constructor.
  - destruct (p x) as [keep|]; [|discriminate].
    destruct (comprehension_if p xs) as [zs|]; [|discriminate].
    intros [= <-]. destruct keep; constructor; now apply IH.
Qed.

Lemma apply_level_sublist (level : option string) (logs kept : list json) :
  apply_level level logs = Ok kept -> kept `sublist_of` logs.
Proof.
  unfold apply_level. destruct level as [l|]; [|now intros [= <-]].
  destruct (decide (l = EmptyString)); [now intros [= <-]|].
  apply comprehension_if_sublist.
Qed.

Lemma apply_since_sublist (since : option string) (logs kept : list json) :
  apply_since since logs = Ok kept -> kept `sublist_of` logs.
Proof.
  unfold apply_since. destruct since as [s|]; [|now intros [= <-]].
  destruct (decide (s = EmptyString)); [now intros [= <-]|].
  destruct (parse_iso (JStr s)) as [since_dt|e]; simpl.
  - destruct (comprehension_if _ logs) as [zs|e] eqn:Hc.
    + intros [= <-]. exact (comprehension_if_sublist _ _ _ Hc).
    + destruct (is_ValueError e); [now intros [= <-] | discriminate].
  - destruct (is_ValueError e); [now intros [= <-] | discriminate].
Qed.

(** X13. A query invents nothing and reorders nothing: whenever it answers a
    list, that list is a subsequence of the JSON values parsed from the lines
    of today's partition, in file order. *)
Theorem answer_is_subsequence_of_partition (tail : Z) (level since : option string)
    (w : World) (content : string) (out : list json) :
  logs_dir_exists w = true ->
  files w !! log_file_at w (clock_pos w) = Some content ->
  fst (get_logs tail level since w) = Ok (JArr out) ->
  exists parsed,
    parse_lines (readlines content) = Ok parsed /\ out `sublist_of` parsed.
Proof.
  intros Hdir Hf. rewrite get_logs_fst. unfold filtered_logs. rewrite Hdir, Hf. simpl.
  destruct (io w (io_pos w)); try discriminate.
  destruct (parse_lines (readlines content)) as [parsed|]; simpl; [|discriminate].
  exists parsed. split; [reflexivity|]. revert H.
  destruct (apply_level level _) as [l1|] eqn:H1; simpl; [|discriminate].
  destruct (apply_since since l1) as [l2|] eqn:H2; [|discriminate].
  intros [= <-].
  transitivity l2; [apply sublist_drop|].
  transitivity l1;
    [exact (apply_since_sublist _ _ _ H2) | exact (apply_level_sublist _ _ _ H1)].
Qed.

Lemma _write_log_files (self : FileLogger) (level message : string)
    (data : option (list (string * json))) (w : World) :
  let today := log_file_at w (S (clock_pos w)) in
  files (snd (_write_log self level message data w)) = files w
  \/ exists text,
       files (snd (_write_log self level message data w))
       = <[today := file_text today w +:+ text]> (files w).
Proof.
  step_write_log. unfold log_file_at.
  destruct (logs_dir_exists w); simpl; [|now left].
  destruct (io w (io_pos w)); simpl; [right | now left | right]; eauto.
Qed.

(** X14. [_write_log] only appends, and only to the partition of the day:
    whatever the outcome of the I/O, every file keeps its text as a prefix of
    its new text, no file disappears, and every file but the one named by the
    local date is left as it was. *)
Theorem append_only_and_only_today (self : FileLogger) (level message : string)
    (data : option (list (string * json))) (w : World) (name : string) :
  let w' := snd (_write_log self level message data w) in
  (exists text, file_text name w' = file_text name w +:+ text)
  /\ (is_Some (files w !! name) -> is_Some (files w' !! name))
  /\ (name <> log_file_at w (S (clock_pos w)) -> files w' !! name = files w !! name).
Proof.
  intros w'. unfold w', file_text.
  destruct (_write_log_files self level message data w) as [-> | [text ->]].
  - split; [|split]; auto. exists EmptyString. now rewrite append_empty_r.
  - destruct (decide (log_file_at w (S (clock_pos w)) = name)) as [<- | Hne].
    + rewrite lookup_insert_eq. split; [|split]; eauto. contradiction.
    + rewrite lookup_insert_ne by assumption. split; [|split]; auto.
      exists EmptyString. now rewrite append_empty_r.
Qed.

(** X15. [_write_log] does not make the log directory. When the directory is
    missing the record is lost: no file and no directory is created, the call
    still returns normally, and the only trace is one line on standard
    output. *)
Theorem append_without_directory_is_lost (self : FileLogger) (level message : string)
    (data : option (list (string * json))) (w : World) :
  logs_dir_exists w = false ->
  _write_log self level message data w
  = (Ok tt,
     mk_World false (files w) (clock w) (S (S (clock_pos w))) (io w) (S (io_pos w))
              (stdout w ++ ["Failed to write log: " +:+ exn_str (OSError 2)])
              (stderr w)).
Proof.
  intros Hdir. step_write_log. rewrite Hdir. simpl. now rewrite Hdir.
Qed.

(** X16. Constructing the logger is what makes the directory, and a failure
    there is not absorbed: either the constructor returns a logger with the
    given service name and the directory exists afterwards (no file touched),
    or the directory was missing, could not be made, and the exception leaves
    the constructor. *)
Theorem construction_makes_directory_or_raises (name : string) (w : World) :
  match FileLogger_init name w with
  | (Ok self, w') =>
      service_name self = name /\ logs_dir_exists w' = true /\ files w' = files w
  | (Raise e, w') =>
      logs_dir_exists w = false /\ logs_dir_exists w' = false
      /\ io w (io_pos w) <> IoOk
  end.
Proof.
  unfold FileLogger_init, bind, mkdir_exist_ok, ret.
  destruct (logs_dir_exists w) eqn:Hdir; [now rewrite Hdir|].
  destruct (io w (io_pos w)); simpl; rewrite ?Hdir; repeat split; discriminate.
Qed.

Lemma lines_of_app (a b : list json) : lines_of (a ++ b) = lines_of a +:+ lines_of b.
Proof.
  induction a as [|x a IH]; [reflexivity|].
  cbn [lines_of app]. now rewrite IH, !append_assoc.
Qed.

(** X17. Over HTTP a query sees itself. The middleware appends the record of
    the [GET /logs] request before the handler reads the partition, so when
    the partition holds the storable entries [olds], the day does not change
    and no I/O fails, the unfiltered answer is the tail of [olds] followed by
    the entry of this very request. *)
Theorem served_query_sees_its_own_request (request : Request) (tail : Z) (w : World)
    (name : string) (olds : list json) :
  logs_dir_exists w = true ->
  log_file_at w (S (clock_pos w)) = name ->
  log_file_at w (S (S (clock_pos w))) = name ->
  io w (io_pos w) = IoOk ->
  io w (S (io_pos w)) = IoOk ->
  file_text name w = lines_of olds ->
  Forall storable olds ->
  let entry := log_entry_of file_logger (local_now (clock w (clock_pos w))) "info"
                            (method request +:+ " " +:+ path request)
                            (Some (request_data request)) in
  storable entry ->
  fst (serve_logs request tail None None w)
  = Ok (JArr (py_slice_from (- tail) (olds ++ [entry]))).
Proof.
  intros Hdir Hn1 Hn2 Hio1 Hio2 Htext Holds entry Hentry.
  unfold serve_logs.
  rewrite log_requests_runs_handler, FileLogger_info_world.
  rewrite _write_log_written by assumption. fold entry. rewrite Hn1.
  rewrite get_logs_fst. f_equal.
  unfold filtered_logs, log_file_at, appended, logger_log in *. simpl.
  rewrite Hdir, Hn2, lookup_insert_eq, Hio2. simpl.
  rewrite Htext.
  replace (lines_of olds +:+ json_dumps entry +:+ newline)
    with (lines_of (olds ++ [entry])).
  - rewrite parse_lines_stored; [reflexivity|].
    apply Forall_app. split; [assumption | now constructor].
  - rewrite lines_of_app. cbn [lines_of]. now rewrite append_empty_r.
Qed.

Lemma _write_log_stderr (self : FileLogger) (level message : string)
    (data : option (list (string * json))) (w : World) :
  stderr (snd (_write_log self level message data w)) = stderr w.
Proof.
  step_write_log.
  destruct (logs_dir_exists w); simpl; [|reflexivity].
  destruct (io w (io_pos w)); reflexivity.
Qed.

(** X18. The four logging methods write the same kind of file entry and differ
    on the console: [info], [error] and [warn] also hand the message to the
    [logging] logger, whose level is [INFO], while [debug] reaches the file
    only, so a debug call is exactly a [_write_log] call. *)
Theorem debug_reaches_the_file_only (self : FileLogger) (message : string)
    (data : option (list (string * json))) (w : World) :
  FileLogger_debug self message data w = _write_log self "debug" message data w
  /\ stderr (snd (FileLogger_info self message data w)) = stderr w ++ [("INFO", message)]
  /\ stderr (snd (FileLogger_error self message data w)) = stderr w ++ [("ERROR", message)]
  /\ stderr (snd (FileLogger_warn self message data w)) = stderr w ++ [("WARNING", message)].
Proof.
  unfold FileLogger_debug, FileLogger_info, FileLogger_error, FileLogger_warn, bind.
  repeat split.
  - pose proof (_write_log_returns self "debug" message data w) as H.
    destruct (_write_log self "debug" message data w) as [r w']. simpl in H. subst r.
    reflexivity.
  - pose proof (_write_log_returns self "info" message data w) as H.
    pose proof (_write_log_stderr self "info" message data w) as Hs.
    destruct (_write_log self "info" message data w) as [r w']. simpl in *. subst r.
    unfold logger_log. simpl. now rewrite Hs.
  - pose proof (_write_log_returns self "error" message data w) as H.
    pose proof (_write_log_stderr self "error" message data w) as Hs.
    destruct (_write_log self "error" message data w) as [r w']. simpl in *. subst r.
    unfold logger_log. simpl. now rewrite Hs.
  - pose proof (_write_log_returns self "warn" message data w) as H.
    pose proof (_write_log_stderr self "warn" message data w) as Hs.
    destruct (_write_log self "warn" message data w) as [r w']. simpl in *. subst r.
    unfold logger_log. simpl. now rewrite Hs.
Qed.

Lemma entries_of_objects (self : FileLogger) (clk : nat -> reading)
    (calls : list (string * string * option (list (string * json)))) :
  forall pos, forallb is_object (entries_of self clk pos calls) = true.
Proof.
  induction calls as [|[[l m] d] rest IH]; intros pos; [reflexivity|].
  simpl. apply IH.
Qed.

(** X22. Appends come after what is already there. The partition of the day
    holds the storable records [olds]; after any run of [_write_log] calls on
    the same day without I/O failure, a query without [since] answers the tail
    of what the level filter keeps of [olds] followed by the new entries, in
    the order of the calls. *)
Theorem appends_follow_earlier_records (self : FileLogger)
    (calls : list (string * string * option (list (string * json))))
    (w : World) (tail : Z) (level : option string) (today : string)
    (olds : list json) :
  logs_dir_exists w = true ->
  (forall i, (clock_pos w <= i)%nat -> strftime_Ymd (local_now (clock w i)) = today) ->
  files w !! (today +:+ ".log") = Some (lines_of olds) ->
  (forall i, (io_pos w <= i)%nat -> io w i = IoOk) ->
  Forall storable olds ->
  forallb is_object olds = true ->
  Forall storable (entries_of self (clock w) (clock_pos w) calls) ->
  fst (get_logs tail level None (snd (write_logs self calls w)))
  = Ok (JArr (py_slice_from (- tail)
                (level_kept level
                   (olds ++ entries_of self (clock w) (clock_pos w) calls)))).
Proof.
  intros Hdir Hday Hold Hio Hst Hobj Hnew.
  assert (forall i, (clock_pos w <= i)%nat -> log_file_at w i = today +:+ ".log") as Hday'.
  { intros i Hi. unfold log_file_at. now rewrite Hday. }
  destruct (write_logs_run self (today +:+ ".log") calls w Hdir Hday' Hio)
    as (Hd & Hc & Hi & Hcp & Hip & Hfile).
  set (w' := snd (write_logs self calls w)) in *.
  set (entries := entries_of self (clock w) (clock_pos w) calls) in *.
  assert (files w' !! (today +:+ ".log") = Some (lines_of (olds ++ entries))) as Hcontent.
  { rewrite Hfile, lines_of_app. unfold file_text. rewrite Hold. simpl default.
    destruct calls; [|reflexivity].
    unfold entries. simpl. now rewrite append_empty_r. }
  rewrite get_logs_fst.
  rewrite (filtered_logs_read _ _ _ (lines_of (olds ++ entries))).
  - rewrite parse_lines_stored by (apply Forall_app; now split).
    cbn [rbind]. rewrite apply_level_objects; [reflexivity|].
    rewrite forallb_app, Hobj. apply entries_of_objects.
  - exact Hd.
  - unfold log_file_at. rewrite Hc, Hday by assumption. exact Hcontent.
  - rewrite Hi. now apply Hio.
Qed.

Lemma parse_lines_raises (before after : list string) (line : string)
    (read_before : list (option json)) (e : exn) :
  Forall2 line_reads before read_before ->
  str_strip line <> EmptyString ->
  json_loads (str_strip line) = Raise e ->
  is_JSONDecodeError e = false ->
  parse_lines (before ++ line :: after) = Raise e.
Proof.
  intros Hbefore Hne Hload He.
  induction Hbefore as [|l [v|] ls os Hl _ IH]; simpl.
  - destruct (decide (str_strip line = EmptyString)); [contradiction|].
    now rewrite Hload, He.
  - destruct Hl as [Hlne Hlload].
    destruct (decide (str_strip l = EmptyString)); [contradiction|].
    now rewrite Hlload, IH.
  - destruct (decide (str_strip l = EmptyString)); [exact IH|].
    destruct Hl as [Hblank | Hlload]; [contradiction|].
    now rewrite Hlload.
Qed.

(** X23. The parse loop skips [JSONDecodeError] only. A line on which
    [json.loads] raises anything else (the [ValueError] of an integer literal
    above the digit limit, a [RecursionError]) ends the loop: when the lines
    before it are read without such an exception, every query on that
    partition fails, whatever [tail], [level] and [since] are. *)
Theorem unskipped_parse_error_fails_the_query (tail : Z) (level since : option string)
    (w : World) (content : string) (before after : list string) (line : string)
    (read_before : list (option json)) (e : exn) :
  logs_dir_exists w = true ->
  io w (io_pos w) = IoOk ->
  files w !! log_file_at w (clock_pos w) = Some content ->
  readlines content = before ++ line :: after ->
  Forall2 line_reads before read_before ->
  str_strip line <> EmptyString ->
  json_loads (str_strip line) = Raise e ->
  is_JSONDecodeError e = false ->
  fst (get_logs tail level since w) = Ok fetch_failed.
Proof.
  intros Hdir Hio Hf Hlines Hbefore Hne Hload He.
  rewrite get_logs_fst, (filtered_logs_read _ _ _ content) by assumption.
  now rewrite Hlines, (parse_lines_raises _ _ _ _ _ Hbefore Hne Hload He).
Qed.

End MoreProperties.

(** * Properties of the shared library *)

Lemma dict_lookup_map_values (f : json -> json) (key : string)
    (config : list (string * json)) :
  dict_lookup key (map (fun kv => (fst kv, f (snd kv))) config)
  = option_map f (dict_lookup key config).
Proof.
  induction config as [|[k v] config IH]; [reflexivity|]. simpl.
  destruct (String.eqb k key); [reflexivity | exact IH].
Qed.

(** X19. [validate_config] looks at keys only: it answers [True] exactly when
    every required key is a key of [config], whatever the values are (a key
    bound to [None] counts), and a list of requirements put together from two
    lists holds when both do. *)
Theorem validate_config_checks_presence_only (config : list (string * json))
    (required extra : list string) :
  (validate_config config required = true
   <-> forall key, In key required -> exists v, dict_lookup key config = Some v)
  /\ (forall f : json -> json,
        validate_config (map (fun kv => (fst kv, f (snd kv))) config) required
        = validate_config config required)
  /\ validate_config config (required ++ extra)
     = validate_config config required && validate_config config extra.
Proof.
  unfold validate_config. split; [|split].
  - rewrite forallb_forall. unfold dict_contains.
    split; intros H key Hin; specialize (H key Hin).
    + destruct (dict_lookup key config); [eauto | discriminate].
    + destruct H as [v ->]. reflexivity.
  - intros f. induction required as [|key required IH]; [reflexivity|].
    simpl. rewrite IH. f_equal. unfold dict_contains.
    rewrite dict_lookup_map_values. now destruct (dict_lookup key config).
  - apply forallb_app.
Qed.

(** X20. After [__post_init__] a model always has both timestamps: a value
    that was given is kept, a missing one is read from the UTC clock, each on
    its own reading (so the two may differ when both were missing), the [id]
    is not touched, and running it again changes nothing and reads no clock. *)
Theorem post_init_fills_missing_timestamps (self : Models.BaseModel) (w : World) :
  exists m w',
    Models.__post_init__ self w = (Ok m, w')
    /\ Models.id m = Models.id self
    /\ is_Some (Models.created_at m)
    /\ is_Some (Models.updated_at m)
    /\ (forall t, Models.created_at self = Some t -> Models.created_at m = Some t)
    /\ (forall t, Models.updated_at self = Some t -> Models.updated_at m = Some t)
    /\ (Models.created_at self = None ->
        Models.updated_at self = None ->
        Models.created_at m = Some (utc_now (clock w (clock_pos w)))
        /\ Models.updated_at m = Some (utc_now (clock w (S (clock_pos w)))))
    /\ Models.__post_init__ m w' = (Ok m, w').
Proof.
  destruct self as [i [c|] [u|]];
    unfold Models.__post_init__, bind, datetime_utcnow, ret; simpl;
    eexists; eexists; (split; [reflexivity|]); simpl;
    repeat split; eauto; try discriminate.
Qed.

(** X21. [format_response] stamps its answer with the UTC clock and passes
    [status] and [data] through unchanged; the ["message"] key is there only
    for a non-empty message, an empty string being left out like [None]. *)
Theorem format_response_omits_empty_message (data : json) (status : string)
    (message : option string) (w : World) :
  exists members,
    format_response data status message w = (Ok (JObj members), tick_clock w)
    /\ dict_lookup "status" members = Some (JStr status)
    /\ dict_lookup "timestamp" members
       = Some (JStr (isoformat (utc_now (clock w (clock_pos w)))))
    /\ dict_lookup "data" members = Some data
    /\ dict_lookup "message" members
       = match message with
         | Some m => if decide (m = EmptyString) then None else Some (JStr m)
         | None => None
         end.
Proof.
  unfold format_response, bind, datetime_utcnow, ret. simpl.
  eexists. split; [reflexivity|].
  destruct message as [m|]; [destruct (decide (m = EmptyString))|];
    repeat split; reflexivity.
Qed.

(** * Runs on the reference runtime *)

Section Runs.
Import Examples.
#[local] Existing Instance Ref.runtime.

Ltac run := vm_compute; reflexivity.

(** C1 at three calls on a fresh partition. *)
Lemma appended_records_are_returned_in_order_run :
  fst (get_logs 50 None None (snd (write_logs file_logger three_calls fresh_world)))
  = Ok (JArr (entries_of file_logger (clock fresh_world) (clock_pos fresh_world)
                         three_calls)).
Proof.
  apply (appended_records_are_returned_in_order file_logger three_calls fresh_world
           50 "2024-01-15").
  - reflexivity.
  - intros i _. reflexivity.
  - reflexivity.
  - intros i _. reflexivity.
  - repeat constructor; vm_compute; congruence.
  - vm_compute. congruence.
Defined.

(** C2 at [tail = 2] on three records. *)
Lemma tail_returns_last_min_run :
  exists out,
    fst (get_logs 2 None None (world_of three_records)) = Ok (JArr out)
    /\ out = drop (length [r1; r2; r3] - Z.to_nat 2) [r1; r2; r3]
    /\ Z.of_nat (length out) = Z.min 2 (Z.of_nat (length [r1; r2; r3]))
    /\ Z.of_nat (length out) <= 2.
Proof.
  apply (tail_returns_last_min 2 None None (world_of three_records) [r1; r2; r3]).
  - lia.
  - run.
Defined.

(** C3 does not hold as stated: the record's level and the filter agree up to case,
    yet neither [level=ERROR] nor [level=error] returns the record, which is
    in the partition. *)
Lemma level_filter_misses_uppercase_record :
  str_lower "ERROR" = str_lower "error"
  /\ fst (get_logs 50 (Some "ERROR") None (world_of (line_of loud))) = Ok (JArr [])
  /\ fst (get_logs 50 (Some "error") None (world_of (line_of loud))) = Ok (JArr [])
  /\ fst (get_logs 50 None None (world_of (line_of loud))) = Ok (JArr [loud]).
Proof. repeat split; run. Qed.

(** C3 as amended, at [level=ERROR] on three records with lower-case levels. *)
Lemma level_filter_keeps_lowercased_filter_run :
  fst (get_logs 50 (Some "ERROR") None (world_of three_records)) = Ok (JArr [r2]).
Proof.
  destruct (level_filter_keeps_lowercased_filter 50 "ERROR" None
              (world_of three_records) three_records [r1; r2; r3]) as (H & _ & _).
  - reflexivity.
  - run.
  - reflexivity.
  - discriminate.
  - run.
  - destruct H as (_ & _ & H); [reflexivity|]. rewrite H. run.
Defined.

(** C4 does not hold as stated: one JSON object without a ["timestamp"] makes a
    query with a well-formed [since] fail, while the same query without
    [since] returns the object; and beside a line that is a JSON number, a
    query with a level filter fails whatever the objects are. *)
Lemma object_without_timestamp_fails_since :
  is_object odd = true
  /\ json_loads (str_strip (line_of odd)) = Ok odd
  /\ fst (get_logs 50 None (Some "2024-01-15T00:00:00") (world_of (line_of odd)))
     = Ok fetch_failed
  /\ fst (get_logs 50 None None (world_of (line_of odd))) = Ok (JArr [odd])
  /\ fst (get_logs 50 (Some "info") None (world_of (line_of r1 +:+ "42" +:+ newline)))
     = Ok fetch_failed.
Proof. repeat split; run. Qed.

(** C4 as amended, at a [since] that parses over a record whose timestamp
    does not: the filter is dropped and both objects are returned. *)
Lemma objects_do_not_fail_the_query_run :
  fst (get_logs 50 None (Some "2024-01-15T00:00:00")
         (world_of (line_of mistimed +:+ line_of r1)))
  = Ok (JArr [mistimed; r1]).
Proof.
  rewrite (objects_do_not_fail_the_query 50 None (Some "2024-01-15T00:00:00")
             (world_of (line_of mistimed +:+ line_of r1))
             (line_of mistimed +:+ line_of r1) [mistimed; r1]).
  - run.
  - reflexivity.
  - run.
  - reflexivity.
  - run.
  - exact I.
  - right. run.
Defined.

(** C5 at [since=yesterday]. *)
Lemma unparseable_since_is_ignored_run :
  get_logs 50 None (Some "yesterday") (world_of three_records)
  = get_logs 50 None None (world_of three_records).
Proof.
  apply (unparseable_since_is_ignored 50 None "yesterday" (world_of three_records)).
  run.
Defined.

(** C7 does not hold as stated: the line is not JSON, [json.loads] raises a
    [ValueError] on it that is no [JSONDecodeError], and the query fails;
    without the line it returns both records. *)
Lemma overlong_integer_line_fails_the_query :
  json_loads (str_strip (overlong +:+ newline)) = Raise (ValueError_int_digits 4301)
  /\ is_JSONDecodeError (ValueError_int_digits 4301) = false
  /\ fst (get_logs 50 None None
            (world_of (line_of r1 +:+ overlong +:+ newline +:+ line_of r2)))
     = Ok fetch_failed
  /\ fst (get_logs 50 None None (world_of (line_of r1 +:+ line_of r2)))
     = Ok (JArr [r1; r2]).
Proof. repeat split; run. Qed.

(** C7 as amended, at a line of plain text between two records. *)
Lemma malformed_line_is_skipped_run :
  fst (get_logs 50 None None
         (world_of (line_of r1 +:+ "this is not json" +:+ newline +:+ line_of r2)))
  = Ok (JArr (py_slice_from (- 50) (kept_values [Some r1] ++ kept_values [Some r2]))).
Proof.
  destruct (malformed_line_is_skipped 50 None None
              (world_of (line_of r1 +:+ "this is not json" +:+ newline +:+ line_of r2))
              (line_of r1 +:+ "this is not json" +:+ newline +:+ line_of r2)
              [line_of r1] [line_of r2] ("this is not json" +:+ newline)
              [Some r1] [Some r2])
    as (H & _ & _).
  - reflexivity.
  - reflexivity.
  - run.
  - run.
  - run.
  - repeat constructor; vm_compute; congruence.
  - repeat constructor; vm_compute; congruence.
  - exact H.
Defined.

(** C8 does not hold as stated: one [GET /health] on a fresh partition opens the
    log file twice and leaves two lines in it. *)
Lemma health_request_appends_two_records :
  let w' := snd (log_requests get_health (fun _ => health) fresh_world) in
  io_pos fresh_world = 0%nat
  /\ io_pos w' = 2%nat
  /\ file_text "2024-01-15.log" fresh_world = EmptyString
  /\ parse_lines (readlines (file_text "2024-01-15.log" w'))
     = Ok
       [JObj [("timestamp", JStr "2024-01-15T12:00:00"); ("level", JStr "info");
              ("service", JStr "python"); ("message", JStr "GET /health");
              ("data", JObj [("method", JStr "GET"); ("path", JStr "/health");
                             ("query_params", JObj []);
                             ("client_host", JStr "unknown")])];
        JObj [("timestamp", JStr "2024-01-15T12:00:00"); ("level", JStr "info");
              ("service", JStr "python"); ("message", JStr "Health check requested");
              ("data", JObj [])]].
Proof. repeat split; run. Qed.

(** C9 does not hold as stated: at 23:30 UTC on 2024-01-15, on a machine two hours
    east, an append creates [2024-01-16.log]; no file is named by the UTC date,
    with or without the [.log] suffix, and a query does not see the partition
    of the UTC date. *)
Lemma partition_is_not_named_by_utc_date :
  let w' := snd (_write_log file_logger "info" "x" None east_world) in
  strftime_Ymd (utc_now (clock east_world 1)) = "2024-01-15"
  /\ files w' !! "2024-01-15" = None
  /\ files w' !! "2024-01-15.log" = None
  /\ files w' !! "2024-01-16.log"
     = Some (line_of (record "2024-01-16T01:30:00" "info" "x"))
  /\ fst (get_logs 50 None None
            (set_files {[ "2024-01-15.log" := three_records ]} east_world))
     = Ok (JArr []).
Proof. repeat split; run. Qed.

(** C9 as amended, on the machine two hours east: the append goes to the file
    of the local date, and the query answers from that file, not from the one
    of the UTC date. *)
Lemma partition_is_named_by_local_date_run :
  files (snd (_write_log file_logger "info" "x" None east_world))
  = <[ "2024-01-16.log" := line_of (record "2024-01-16T01:30:00" "info" "x") ]>
      (files east_world)
  /\ fst (get_logs 50 None None (east_archive three_records (line_of loud)))
     = Ok (JArr [loud]).
Proof.
  split.
  - destruct (partition_is_named_by_local_date file_logger "info" "x" None east_world)
      as [H _].
    rewrite H; reflexivity.
  - destruct (partition_is_named_by_local_date file_logger "info" "x" None
                (east_archive three_records (line_of loud))) as (_ & H & _).
    rewrite (H 50 None None (line_of loud)).
    + run.
    + reflexivity.
    + reflexivity.
    + run.
Defined.

(** C10 does not hold as stated: the second record has a timestamp that does not
    parse, but the first has none at all; the query with a well-formed [since]
    fails, it does not fall back to the answer without [since]. *)
Lemma bad_timestamp_after_missing_one_fails :
  fromisoformat (str_replace_char "Z" "+00:00" "2024-01-15T00:00:00")
  = Some (mk_datetime 2024 1 15 0 0 0 0 None)
  /\ fromisoformat (str_replace_char "Z" "+00:00" "not-a-time") = None
  /\ fst (get_logs 50 None (Some "2024-01-15T00:00:00")
            (world_of (line_of untimed +:+ line_of mistimed)))
     = Ok fetch_failed
  /\ fst (get_logs 50 None None (world_of (line_of untimed +:+ line_of mistimed)))
     = Ok (JArr [untimed; mistimed]).
Proof. repeat split; run. Qed.

(** C10 as amended: the bad timestamp follows a record that compares. *)
Lemma bad_timestamp_drops_since_run :
  fst (get_logs 50 None (Some "2024-01-15T10:00:00")
         (world_of (line_of r1 +:+ line_of mistimed +:+ line_of r3)))
  = Ok (JArr (py_slice_from (- 50) ([r1] ++ mistimed :: [r3]))).
Proof.
  destruct (bad_timestamp_drops_since 50 None "2024-01-15T10:00:00"
              (world_of (line_of r1 +:+ line_of mistimed +:+ line_of r3))
              (line_of r1 +:+ line_of mistimed +:+ line_of r3)
              (mk_datetime 2024 1 15 10 0 0 0 None)
              [r1] [r3] [("timestamp", JStr "not-a-time")] "not-a-time")
    as [H _].
  - reflexivity.
  - run.
  - reflexivity.
  - discriminate.
  - run.
  - run.
  - constructor; [exists false; run | constructor].
  - reflexivity.
  - run.
  - exact H.
Defined.

End Runs.

(** * Further runs on the reference runtime *)

Section MoreRuns.
Import Examples.
#[local] Existing Instance Ref.runtime.

Ltac run := vm_compute; reflexivity.

(** X2 without a log directory. *)
Lemma get_logs_without_partition_run :
  get_logs 50 (Some "info") (Some "2024-01-15T00:00:00") bare_world
  = (Ok (JArr []),
     if logs_dir_exists bare_world then tick_clock bare_world else bare_world).
Proof.
  apply (get_logs_without_partition 50 (Some "info") (Some "2024-01-15T00:00:00")
           bare_world).
  left. reflexivity.
Defined.

(** X3 at [tail = 0] on three records. *)
Lemma nonpositive_tail_drops_from_the_front_run :
  fst (get_logs 0 None None (world_of three_records)) = Ok (JArr [r1; r2; r3]).
Proof.
  destruct (nonpositive_tail_drops_from_the_front 0 None None
              (world_of three_records) [r1; r2; r3]) as [_ H].
  - lia.
  - run.
  - now apply H.
Defined.

(** X4 at a level filter over a line that is a number. *)
Lemma failed_query_logs_its_failure_run :
  get_logs 50 (Some "info") None number_world
  = (Ok fetch_failed,
     snd (FileLogger_error file_logger
            ("Failed to fetch logs: " +:+ exn_str (AttributeError (JInt 42) "get"))
            None (tick_io (tick_clock number_world)))).
Proof.
  destruct (failed_query_logs_its_failure 50 (Some "info") None number_world
              (AttributeError (JInt 42) "get")) as [H _].
  - run.
  - exact H.
Defined.

(** X5 on three records. *)
Lemma successful_query_is_read_only_run :
  files (snd (get_logs 2 (Some "info") None (world_of three_records)))
  = files (world_of three_records).
Proof.
  destruct (successful_query_is_read_only 2 (Some "info") None
              (world_of three_records) [r1; r3]) as [H _].
  - run.
  - exact H.
Defined.

(** X6 at a number after a record. *)
Lemma level_filter_fails_on_non_object_run :
  fst (get_logs 50 (Some "info") None (world_of (line_of r1 +:+ "42" +:+ newline)))
  = Ok fetch_failed.
Proof.
  destruct (level_filter_fails_on_non_object 50 "info" None
              (world_of (line_of r1 +:+ "42" +:+ newline))
              (line_of r1 +:+ "42" +:+ newline) [r1] [] (JInt 42)) as [H _].
  - reflexivity.
  - run.
  - reflexivity.
  - discriminate.
  - run.
  - reflexivity.
  - reflexivity.
  - exact H.
Defined.

(** X8 at [ERROR] and [Error]. *)
Lemma level_filter_ignores_case_of_filter_run :
  get_logs 50 (Some "ERROR") None (world_of three_records)
  = get_logs 50 (Some "Error") None (world_of three_records).
Proof.
  apply (level_filter_ignores_case_of_filter 50 "ERROR" "Error" None
           (world_of three_records)).
  - discriminate.
  - discriminate.
  - run.
Defined.

(** X9 at a trailing [Z] and the offset it stands for. *)
Lemma since_Z_reads_as_offset_run :
  get_logs 50 None (Some "2024-01-15T10:00:00Z") (world_of three_records)
  = get_logs 50 None (Some "2024-01-15T10:00:00+00:00") (world_of three_records).
Proof.
  apply (since_Z_reads_as_offset 50 None "2024-01-15T10:00:00Z"
           "2024-01-15T10:00:00+00:00" (world_of three_records)).
  - discriminate.
  - discriminate.
  - run.
Defined.

(** X10 at a [since] equal to the timestamp of the second record. *)
Lemma since_keeps_records_at_or_after_run :
  fst (get_logs 50 None (Some "2024-01-15T10:00:00") (world_of three_records))
  = Ok (JArr (py_slice_from (- 50)
                (List.filter (at_or_after (mk_datetime 2024 1 15 10 0 0 0 None))
                             [r1; r2; r3]))).
Proof.
  destruct (since_keeps_records_at_or_after 50 None "2024-01-15T10:00:00"
              (world_of three_records) three_records
              (mk_datetime 2024 1 15 10 0 0 0 None) [r1; r2; r3]) as [H _].
  - reflexivity.
  - run.
  - reflexivity.
  - discriminate.
  - run.
  - run.
  - repeat constructor; eexists; split; run.
  - exact H.
Defined.

(** X11 at a [since] in UTC against records with naive timestamps. *)
Lemma mixed_awareness_fails_the_query_run :
  fst (get_logs 50 None (Some "2024-01-15T00:00:00Z") (world_of three_records))
  = Ok fetch_failed.
Proof.
  apply (mixed_awareness_fails_the_query 50 None "2024-01-15T00:00:00Z"
           (world_of three_records) three_records
           (mk_datetime 2024 1 15 0 0 0 0 (Some 0))
           (mk_datetime 2024 1 15 9 0 0 0 None) [] [r2; r3] r1).
  - reflexivity.
  - run.
  - reflexivity.
  - discriminate.
  - run.
  - run.
  - constructor.
  - run.
  - discriminate.
Defined.

(** X12 at [tail = 1] and [tail = 2]. *)
Lemma larger_tail_extends_answer_run :
  exists short long,
    fst (get_logs 1 None None (world_of three_records)) = Ok (JArr short)
    /\ fst (get_logs 2 None None (world_of three_records)) = Ok (JArr long)
    /\ short `suffix_of` long.
Proof.
  apply (larger_tail_extends_answer 1 2 None None (world_of three_records)
           [r1; r2; r3]).
  - lia.
  - lia.
  - run.
Defined.

(** X13 at a level filter on three records. *)
Lemma answer_is_subsequence_of_partition_run :
  exists parsed,
    parse_lines (readlines three_records) = Ok parsed
    /\ [r1; r3] `sublist_of` parsed.
Proof.
  apply (answer_is_subsequence_of_partition 50 (Some "info") None
           (world_of three_records) three_records [r1; r3]).
  - reflexivity.
  - run.
  - run.
Defined.

(** X15 without a log directory. *)
Lemma append_without_directory_is_lost_run :
  _write_log file_logger "info" "lost" None bare_world
  = (Ok tt,
     mk_World false (files bare_world) (clock bare_world)
              (S (S (clock_pos bare_world))) (io bare_world) (S (io_pos bare_world))
              (stdout bare_world ++ ["Failed to write log: " +:+ exn_str (OSError 2)])
              (stderr bare_world)).
Proof.
  apply (append_without_directory_is_lost file_logger "info" "lost" None bare_world).
  reflexivity.
Defined.

(** X17 at a partition of three records. *)
Lemma served_query_sees_its_own_request_run :
  fst (serve_logs get_logs_request 2 None None (world_of three_records))
  = Ok (JArr (py_slice_from (- 2)
                ([r1; r2; r3]
                 ++ [log_entry_of file_logger
                       (local_now (clock (world_of three_records)
                                         (clock_pos (world_of three_records))))
                       "info"
                       (method get_logs_request +:+ " " +:+ path get_logs_request)
                       (Some (request_data get_logs_request))]))).
Proof.
  apply (served_query_sees_its_own_request get_logs_request 2
           (world_of three_records) "2024-01-15.log" [r1; r2; r3]).
  - reflexivity.
  - run.
  - run.
  - reflexivity.
  - reflexivity.
  - run.
  - repeat constructor; vm_compute; congruence.
  - repeat constructor; vm_compute; congruence.
Defined.

(** X22 at three calls after three records, with a level filter. *)
Lemma appends_follow_earlier_records_run :
  fst (get_logs 50 (Some "Error") None
         (snd (write_logs file_logger three_calls (world_of three_records))))
  = Ok (JArr (py_slice_from (- 50)
                (level_kept (Some "Error")
                   ([r1; r2; r3]
                    ++ entries_of file_logger (clock (world_of three_records))
                         (clock_pos (world_of three_records)) three_calls)))).
Proof.
  apply (appends_follow_earlier_records file_logger three_calls
           (world_of three_records) 50 (Some "Error") "2024-01-15" [r1; r2; r3]).
  - reflexivity.
  - intros i _. reflexivity.
  - run.
  - intros i _. reflexivity.
  - repeat constructor; vm_compute; congruence.
  - reflexivity.
  - repeat constructor; vm_compute; congruence.
Defined.

(** X23 at an unclosed array with an integer of 4301 digits, under filters. *)
Lemma unskipped_parse_error_fails_the_query_run :
  fst (get_logs 1 (Some "info") (Some "yesterday")
         (world_of (line_of r1 +:+ overlong +:+ newline +:+ line_of r2)))
  = Ok fetch_failed.
Proof.
  apply (unskipped_parse_error_fails_the_query 1 (Some "info") (Some "yesterday")
           (world_of (line_of r1 +:+ overlong +:+ newline +:+ line_of r2))
           (line_of r1 +:+ overlong +:+ newline +:+ line_of r2)
           [line_of r1] [line_of r2] (overlong +:+ newline) [Some r1]
           (ValueError_int_digits 4301)).
  - reflexivity.
  - reflexivity.
  - run.
  - run.
  - repeat constructor; vm_compute; congruence.
  - vm_compute. congruence.
  - run.
  - reflexivity.
Defined.

End MoreRuns.
